(** * Chatbot flow builder: the flow store and the editor's handlers

    A shallow embedding of [src/store/flowStore.ts] (the zustand store that
    owns nodes, edges and the selection) and of the gesture handlers of the
    [FlowBuilder] component ([canConnect], [handleConnect], [handleSave],
    [handleDrop], the selection handlers and the sidebar), followed by the
    properties the specification states about them and by further
    properties of the handlers, alone and in sequence. *)

From Stdlib Require Import List Bool Arith NArith String Ascii Lia PrimFloat.
Import ListNotations.

Set Implicit Arguments.

(** ** JavaScript strings and truthiness *)

Module JS.

(** A JavaScript string is a sequence of UTF-16 code units. *)
Definition jsstring := list N.

(** Number values are IEEE 754 binary64. *)
Definition number := float.

(** A string literal of the source (all of them are ASCII). *)
Definition lit (s : string) : jsstring :=
  map N_of_ascii (list_ascii_of_string s).

(** [a === b] on strings. *)
Fixpoint eqb (a b : jsstring) : bool :=
  match a, b with
  | [], [] => true
  | x :: a', y :: b' => N.eqb x y && eqb a' b'
  | _, _ => false
  end.

(** [a === b] where either side may be [null] or [undefined]; the two are
    both [None] here, which is sound wherever the source compares them: see
    [canConnect]. *)
Definition eqb_opt (a b : option jsstring) : bool :=
  match a, b with
  | Some x, Some y => eqb x y
  | None, None => true
  | _, _ => false
  end.

(** ToBoolean on a string: only the empty string is falsy. *)
Definition truthy (s : jsstring) : bool :=
  match s with
  | [] => false
  | _ :: _ => true
  end.

(** ToBoolean on [string | null | undefined]. *)
Definition truthy_opt (o : option jsstring) : bool :=
  match o with
  | Some s => truthy s
  | None => false
  end.

(** The code units [String.prototype.trim] strips: ECMAScript's WhiteSpace
    (TAB, VT, FF, ZWNBSP and the space separators) and LineTerminator
    (LF, CR, LS, PS). *)
Definition isWhiteSpace (c : N) : bool :=
  (N.eqb c 9 || N.eqb c 10 || N.eqb c 11 || N.eqb c 12 || N.eqb c 13
   || N.eqb c 32 || N.eqb c 160 || N.eqb c 5760
   || (N.leb 8192 c && N.leb c 8202)
   || N.eqb c 8232 || N.eqb c 8233 || N.eqb c 8239 || N.eqb c 8287
   || N.eqb c 12288 || N.eqb c 65279)%bool.

Fixpoint trimStart (s : jsstring) : jsstring :=
  match s with
  | [] => []
  | c :: rest => if isWhiteSpace c then trimStart rest else s
  end.

Definition trimEnd (s : jsstring) : jsstring :=
  rev (trimStart (rev s)).

(** [s.trim()] *)
Definition trim (s : jsstring) : jsstring :=
  trimEnd (trimStart s).

End JS.

Import JS.

(** ** Data model (reactflow's [Node], [Edge] and [Connection]) *)

Module XYPosition.
Record t := mk { x : number; y : number }.
End XYPosition.

(** [TextMessageNodeData] of the store. *)
Module TextMessageNodeData.
Record t := mk { content : jsstring }.
End TextMessageNodeData.

(** [Partial<TextMessageNodeData>]: a field is present or not. *)
Module PartialData.
Record t := mk { content : option jsstring }.
End PartialData.

Module Node.
Record t := mk {
  id : jsstring;
  type : jsstring;
  position : XYPosition.t;
  data : TextMessageNodeData.t
}.
End Node.

Inductive MarkerType := Arrow | ArrowClosed.

Module EdgeStyle.
Record t := mk { stroke : jsstring; strokeWidth : number }.
End EdgeStyle.

Module Edge.
Record t := mk {
  id : jsstring;
  source : jsstring;
  target : jsstring;
  sourceHandle : option jsstring;
  targetHandle : option jsstring;
  type : option jsstring;
  markerEnd : option MarkerType;
  style : option EdgeStyle.t
}.
End Edge.

(** A candidate connection: every endpoint may be [null]. *)
Module Connection.
Record t := mk {
  source : option jsstring;
  target : option jsstring;
  sourceHandle : option jsstring;
  targetHandle : option jsstring
}.
End Connection.

(** ** The flow store ([useFlowStore]) *)

Record FlowStore := mkStore {
  nodes : list Node.t;
  edges : list Edge.t;
  selectedNodeId : option jsstring
}.

Definition initialNodes : list Node.t :=
  [ Node.mk (lit "node-1") (lit "textMessage")
      (XYPosition.mk 250%float 80%float)
      (TextMessageNodeData.mk (lit "Hello! How can I help you today?")) ].

Definition initialEdges : list Edge.t := [].

(** The state the store is created with. *)
Definition useFlowStore : FlowStore :=
  mkStore initialNodes initialEdges None.

(** reactflow's [addEdge] helper, which the store imports as
    [addReactFlowEdge].  It is code of the reactflow package (version 11),
    not of this repository, and is given here as the package defines it for
    an argument that is an edge (one that carries an id, as every [Edge]
    does): with its [connectionExists] test. *)

(** [a === b || (!a && !b)] on two handles: equal, or both absent or empty.
    Where [null] meets [undefined] the strict equality fails and the second
    test holds, so taking both as [None] gives the same answer. *)
Definition sameHandle (a b : option jsstring) : bool :=
  eqb_opt a b || (negb (truthy_opt a) && negb (truthy_opt b)).

(** [connectionExists(edge, edges)]: some edge of the collection joins the
    same source and target through the same handles.  Ids are not looked at. *)
Definition connectionExists (edge : Edge.t) (es : list Edge.t) : bool :=
  existsb
    (fun el =>
       eqb (Edge.source el) (Edge.source edge)
       && eqb (Edge.target el) (Edge.target edge)
       && sameHandle (Edge.sourceHandle el) (Edge.sourceHandle edge)
       && sameHandle (Edge.targetHandle el) (Edge.targetHandle edge))
    es.

(** [addEdge(edgeParams, edges)]: an edge without a source or a target is
    dropped (with a development warning), so is an edge whose connection is
    already there; otherwise [edges.concat(edge)]. *)
Definition addReactFlowEdge (edge : Edge.t) (es : list Edge.t) : list Edge.t :=
  if negb (truthy (Edge.source edge)) || negb (truthy (Edge.target edge)) then es
  else if connectionExists edge es then es
  else es ++ [edge].

(** [{ ...node.data, ...data }] *)
Definition mergeData (d : TextMessageNodeData.t) (p : PartialData.t)
  : TextMessageNodeData.t :=
  match PartialData.content p with
  | Some c => TextMessageNodeData.mk c
  | None => d
  end.

(** The store's actions; zustand's [set] merges the returned fields into the
    state and keeps the others. *)

Definition setSelectedNodeId (nodeId : option jsstring) (state : FlowStore) : FlowStore :=
  mkStore (nodes state) (edges state) nodeId.

Definition addNode (node : Node.t) (state : FlowStore) : FlowStore :=
  mkStore (nodes state ++ [node]) (edges state) (Some (Node.id node)).

Definition updateNodeData (nodeId : jsstring) (data : PartialData.t)
    (state : FlowStore) : FlowStore :=
  mkStore
    (map (fun node =>
            if eqb (Node.id node) nodeId
            then Node.mk (Node.id node) (Node.type node) (Node.position node)
                   (mergeData (Node.data node) data)
            else node)
         (nodes state))
    (edges state) (selectedNodeId state).

Definition setNodes (ns : list Node.t) (state : FlowStore) : FlowStore :=
  mkStore ns (edges state) (selectedNodeId state).

Definition setEdges (es : list Edge.t) (state : FlowStore) : FlowStore :=
  mkStore (nodes state) es (selectedNodeId state).

Definition addEdge (edge : Edge.t) (state : FlowStore) : FlowStore :=
  mkStore (nodes state) (addReactFlowEdge edge (edges state)) (selectedNodeId state).

(** ** Gesture handlers of the [FlowBuilder] component

    A handler reads the store, may call its actions, and may notify the user
    (react-hot-toast) or write to the console.  It is a computation over the
    store that also collects what it emitted, in order. *)

Inductive Effect :=
| ToastError (message : jsstring)
| ToastSuccess (message : jsstring)
| ConsoleLog (label : jsstring) (ns : list Node.t) (es : list Edge.t).

Definition Handler (A : Type) : Type :=
  FlowStore -> A * FlowStore * list Effect.

Definition ret {A} (a : A) : Handler A :=
  fun st => (a, st, []).

Definition bind {A B} (h : Handler A) (k : A -> Handler B) : Handler B :=
  fun st =>
    let '(a, st1, out1) := h st in
    let '(b, st2, out2) := k a st1 in
    (b, st2, out1 ++ out2).

Declare Scope handler_scope.
Delimit Scope handler_scope with handler.
Notation "x <- h ;; k" := (bind h (fun x => k))
  (at level 61, h at next level, right associativity) : handler_scope.
Notation "h ;; k" := (bind h (fun _ => k))
  (at level 61, right associativity) : handler_scope.
Local Open Scope handler_scope.

(** The component's view of the store ([useFlowStore((state) => ...)]). *)
Definition getState : Handler FlowStore :=
  fun st => (st, st, []).

(** Calling one of the store's actions. *)
Definition dispatch (action : FlowStore -> FlowStore) : Handler unit :=
  fun st => (tt, action st, []).

Definition emit (e : Effect) : Handler unit :=
  fun st => (tt, st, [e]).

(** What a handler leaves behind: the store and the emitted effects. *)
Definition run (h : Handler unit) (st : FlowStore) : FlowStore * list Effect :=
  let '(_, st', out) := h st in (st', out).

(** The platform a fresh identifier comes from: [crypto.randomUUID()] when
    the platform has it ([Some] of what it returns), and the rendering of
    [Date.now()] for the fallback. *)
Record Platform := mkPlatform {
  randomUUID : option jsstring;
  dateNow : jsstring
}.

(** [typeof crypto !== 'undefined' && 'randomUUID' in crypto
      ? crypto.randomUUID() : `<prefix>${Date.now()}`] *)
Definition generateId (prefix : jsstring) (p : Platform) : jsstring :=
  match randomUUID p with
  | Some uuid => uuid
  | None => prefix ++ dateNow p
  end.

(** [edges.some(...)] of [canConnect]: an edge from the connection's source
    that the connection's source handle does not tell apart.  The strict
    equality on handles is only evaluated when the connection's handle is a
    non-empty string, where [null] and [undefined] on the edge's side both
    compare unequal. *)
Definition hasExistingEdge (es : list Edge.t) (connection : Connection.t) : bool :=
  existsb
    (fun edge =>
       eqb_opt (Some (Edge.source edge)) (Connection.source connection)
       && (negb (truthy_opt (Connection.sourceHandle connection))
           || eqb_opt (Edge.sourceHandle edge) (Connection.sourceHandle connection)))
    es.

Definition canConnect (es : list Edge.t) (connection : Connection.t) : bool :=
  if negb (truthy_opt (Connection.source connection)) then false
  else if hasExistingEdge es connection then false
  else if eqb_opt (Connection.source connection) (Connection.target connection) then false
  else true.

Definition branchWarning : jsstring :=
  lit "Each message can branch to only one next step.".

(** The edge [handleConnect] builds from a connection with both endpoints. *)
Definition newEdge (id source target : jsstring) (connection : Connection.t) : Edge.t :=
  Edge.mk id source target
    (Connection.sourceHandle connection)
    (Connection.targetHandle connection)
    (Some (lit "smoothstep"))
    (Some ArrowClosed)
    (Some (EdgeStyle.mk (lit "#6366f1") 2%float)).

Definition handleConnect (p : Platform) (connection : Connection.t) : Handler unit :=
  st <- getState ;;
  if negb (canConnect (edges st) connection) then
    emit (ToastError branchWarning)
  else
    match Connection.source connection, Connection.target connection with
    | Some source, Some target =>
        if negb (truthy source) || negb (truthy target) then ret tt
        else dispatch (addEdge (newEdge (generateId (lit "edge-") p) source target connection))
    | _, _ => ret tt
    end.

(** [handleSave] and its three checks. *)

Definition nodesWithoutIncomingEdge (ns : list Node.t) (es : list Edge.t) : list Node.t :=
  filter (fun node => negb (existsb (fun edge => eqb (Edge.target edge) (Node.id node)) es)) ns.

Definition nodesWithoutMessage (ns : list Node.t) : list Node.t :=
  filter
    (fun node =>
       negb (truthy (TextMessageNodeData.content (Node.data node)))
       || negb (truthy (trim (TextMessageNodeData.content (Node.data node)))))
    ns.

Definition emptyFlowError : jsstring :=
  lit "Add at least one node before saving.".
Definition startNodeError : jsstring :=
  lit "Only one starting node is allowed. Connect your flow before saving.".
Definition contentError : jsstring :=
  lit "Every node needs message content before saving.".
Definition savedMessage : jsstring :=
  lit "Flow saved successfully!".

Definition handleSave : Handler unit :=
  st <- getState ;;
  if Nat.eqb (List.length (nodes st)) 0 then
    emit (ToastError emptyFlowError)
  else if Nat.ltb 1 (List.length (nodesWithoutIncomingEdge (nodes st) (edges st))) then
    emit (ToastError startNodeError)
  else if Nat.ltb 0 (List.length (nodesWithoutMessage (nodes st))) then
    emit (ToastError contentError)
  else
    emit (ToastSuccess savedMessage) ;;
    emit (ConsoleLog (lit "Saved flow:") (nodes st) (edges st)).

(** The remaining selection handlers. *)

Definition handlePaneClick : Handler unit :=
  dispatch (setSelectedNodeId None).

(** [selection.nodes?.[0]?.id ?? null] *)
Definition handleSelectionChange (selected : list Node.t) : Handler unit :=
  dispatch (setSelectedNodeId
              (match selected with
               | [] => None
               | first :: _ => Some (Node.id first)
               end)).

(** What [handleDrop] reads from the drag event: the string stored under
    [application/reactflow] (empty when there is none) and the pointer. *)
Record DropEvent := mkDropEvent {
  dataTransferType : jsstring;
  clientX : number;
  clientY : number
}.

(** [getBoundingClientRect()] of the wrapper, as far as it is used. *)
Record DOMRect := mkDOMRect { left : number; top : number }.

(** The two refs of the component: the wrapper element and the reactflow
    instance with its [project] function; each is [null] until mounted. *)
Record Canvas := mkCanvas {
  reactFlowWrapper : option DOMRect;
  reactFlowInstance : option (XYPosition.t -> XYPosition.t)
}.

Definition handleDrop (p : Platform) (canvas : Canvas) (event : DropEvent)
  : Handler unit :=
  let type := dataTransferType event in
  if negb (truthy type) then ret tt
  else
    match reactFlowWrapper canvas, reactFlowInstance canvas with
    | Some bounds, Some project =>
        let position :=
          project (XYPosition.mk (clientX event - left bounds)%float
                                 (clientY event - top bounds)%float) in
        dispatch (addNode (Node.mk (generateId (lit "node-") p) type position
                             (TextMessageNodeData.mk (lit "New chatbot message"))))
    | _, _ => ret tt
    end.

(** ** The sidebar *)

(** [selectedNode]: [nodes.find((node) => node.id === selectedNodeId) ?? null];
    with a [null] selection no id is equal to it. *)
Definition selectedNode (st : FlowStore) : option Node.t :=
  find (fun node => eqb_opt (Some (Node.id node)) (selectedNodeId st)) (nodes st).

(** What the [aside] renders: the properties panel of the selected node,
    with its content, or the nodes library. *)
Inductive Sidebar :=
| NodePropertiesPanel (content : jsstring)
| NodesPanel.

Definition sidebar (st : FlowStore) : Sidebar :=
  match selectedNode st with
  | Some node => NodePropertiesPanel (TextMessageNodeData.content (Node.data node))
  | None => NodesPanel
  end.

(** The panel's [onChange]: [updateNodeData(selectedNode.id, { content: value })].
    The panel exists only while a node is selected; without one there is
    nothing to call. *)
Definition onChange (value : jsstring) : Handler unit :=
  st <- getState ;;
  match selectedNode st with
  | Some node => dispatch (updateNodeData (Node.id node) (PartialData.mk (Some value)))
  | None => ret tt
  end.

(** The panel's [onClose]. *)
Definition onClose : Handler unit :=
  dispatch (setSelectedNodeId None).

(** ** Sequences of gestures

    The gestures whose handlers are modelled above; node and edge removal
    goes through reactflow's change helpers and is not among them. *)
Inductive Gesture :=
| Connect (p : Platform) (c : Connection.t)
| Drop (p : Platform) (canvas : Canvas) (event : DropEvent)
| SelectionChange (selected : list Node.t)
| PaneClick
| Save
| ChangeContent (value : jsstring)
| ClosePanel.

Definition perform (g : Gesture) : Handler unit :=
  match g with
  | Connect p c => handleConnect p c
  | Drop p canvas event => handleDrop p canvas event
  | SelectionChange selected => handleSelectionChange selected
  | PaneClick => handlePaneClick
  | Save => handleSave
  | ChangeContent value => onChange value
  | ClosePanel => onClose
  end.

Fixpoint performAll (gs : list Gesture) : Handler unit :=
  match gs with
  | [] => ret tt
  | g :: rest => perform g ;; performAll rest
  end.

(** The branch an edge occupies: its source node and source handle. *)
Definition branchKey (e : Edge.t) : jsstring * option jsstring :=
  (Edge.source e, Edge.sourceHandle e).

(** Edges as the connect gesture leaves them: no two on the same branch,
    none from a node to itself, none with an empty endpoint. *)
Definition wellBranched (es : list Edge.t) : Prop :=
  NoDup (map branchKey es)
  /\ Forall (fun e => Edge.source e <> Edge.target e
                      /\ Edge.source e <> [] /\ Edge.target e <> []) es.

(** Two edges make the same connection: same source and target, and on
    each side the same handle, or no (or an empty) handle on both. *)
Definition sameConnection (a b : Edge.t) : Prop :=
  Edge.source a = Edge.source b
  /\ Edge.target a = Edge.target b
  /\ (Edge.sourceHandle a = Edge.sourceHandle b
      \/ (truthy_opt (Edge.sourceHandle a) = false
          /\ truthy_opt (Edge.sourceHandle b) = false))
  /\ (Edge.targetHandle a = Edge.targetHandle b
      \/ (truthy_opt (Edge.targetHandle a) = false
          /\ truthy_opt (Edge.targetHandle b) = false)).

(** A gesture that is not a connection from a named source handle; the
    nodes of this editor have one unnamed handle per side. *)
Definition namesNoHandle (g : Gesture) : Prop :=
  match g with
  | Connect _ c => truthy_opt (Connection.sourceHandle c) = false
  | _ => True
  end.

(** The connection-validity rule in the specification's words, to compare
    with [canConnect]: the connection has a source endpoint; no edge leaves
    the same source node through the same source handle, an absent handle
    counting as one implicit handle ([None]); source and target differ. *)
Definition specConnectionValid (es : list Edge.t) (c : Connection.t) : Prop :=
  truthy_opt (Connection.source c) = true
  /\ (forall edge, In edge es ->
        ~ (Some (Edge.source edge) = Connection.source c
           /\ Edge.sourceHandle edge = Connection.sourceHandle c))
  /\ Connection.source c <> Connection.target c.

(** ** Example flows

    Stores, platforms and connections the statements below are tried on. *)

Definition emptyStore : FlowStore := mkStore [] [] None.

Definition textNode (id content : string) : Node.t :=
  Node.mk (lit id) (lit "textMessage") (XYPosition.mk 0%float 0%float)
    (TextMessageNodeData.mk (lit content)).

(** A platform with [crypto.randomUUID], and one without. *)
Definition uuidPlatform (uuid : string) : Platform :=
  mkPlatform (Some (lit uuid)) (lit "1700000000000").

Definition legacyPlatform (now : string) : Platform :=
  mkPlatform None (lit now).

Definition connectionBetween (source target : string) : Connection.t :=
  Connection.mk (Some (lit source)) (Some (lit target)) None None.

(** A connection the predicate accepts although it has no target. *)
Definition danglingConnection : Connection.t :=
  Connection.mk (Some (lit "node-1")) None None None.

(** Examples for the handle rule: node [A] already branches to [B] from its
    handle [h1], and a new connection leaves [A] for [C] naming no handle. *)
Definition edgeFromHandle : Edge.t :=
  Edge.mk (lit "e1") (lit "A") (lit "B") (Some (lit "h1")) None None None None.

Definition connectionWithoutHandle : Connection.t :=
  Connection.mk (Some (lit "A")) (Some (lit "C")) None None.

(** A store with the edge [e1] from [A] to [B]; a second edge [e2] that
    makes the same connection; an edge without a target. *)
Definition storeWithEdge : FlowStore :=
  mkStore [textNode "A" "First"; textNode "B" "Second"]
    [Edge.mk (lit "e1") (lit "A") (lit "B") None None None None None] None.

Definition sameConnectionEdge : Edge.t :=
  Edge.mk (lit "e2") (lit "A") (lit "B") None None None None None.

Definition edgeWithoutTarget : Edge.t :=
  Edge.mk (lit "e3") (lit "A") [] None None None None None.

(** Two nodes dropped on an empty canvas and never connected; the second
    one has only spaces for content. *)
Definition twoDisconnected : FlowStore :=
  addNode (textNode "B" "   ") (addNode (textNode "A" "First") emptyStore).

(** Two nodes connected in a cycle by two accepted connect gestures. *)
Definition twoInCycle : FlowStore :=
  fst (run (handleConnect (uuidPlatform "u-2") (connectionBetween "B" "A"))
         (fst (run (handleConnect (uuidPlatform "u-1") (connectionBetween "A" "B"))
                 (addNode (textNode "B" "Second")
                    (addNode (textNode "A" "First") emptyStore))))).

(** A canvas that is mounted, with the identity as projection, and one
    whose instance is not there yet. *)
Definition mountedCanvas : Canvas :=
  mkCanvas (Some (mkDOMRect 0%float 0%float)) (Some (fun position => position)).

Definition unmountedCanvas : Canvas :=
  mkCanvas (Some (mkDOMRect 0%float 0%float)) None.

Definition dropOf (type : string) : DropEvent :=
  mkDropEvent (lit type) 100%float 200%float.

(** A session on the initial store. *)
Definition session : list Gesture :=
  [ Drop (uuidPlatform "n-2") mountedCanvas (dropOf "textMessage");
    Connect (uuidPlatform "e-1") (Connection.mk (Some (lit "node-1")) (Some (lit "n-2")) None None);
    Connect (uuidPlatform "e-2") (Connection.mk (Some (lit "node-1")) (Some (lit "node-1")) None None);
    ChangeContent (lit "Thanks!");
    PaneClick;
    Save ].

(** * Properties *)

(** ** Strings: equality tests and [trim] *)

Section StringFacts.

Lemma eqb_eq (a b : jsstring) : eqb a b = true <-> a = b.
Proof.
  revert b; induction a as [|x a IH]; intros [|y b]; simpl;
    try (split; [discriminate | discriminate]); try tauto.
  rewrite andb_true_iff, N.eqb_eq, IH.
  split; [intros [-> ->]; reflexivity | intros E; inversion E; auto].
Qed.

Lemma eqb_refl (a : jsstring) : eqb a a = true.
Proof. apply eqb_eq; reflexivity. Qed.

Lemma eqb_neq (a b : jsstring) : eqb a b = false <-> a <> b.
Proof.
  rewrite <- eqb_eq. destruct (eqb a b); split; congruence.
Qed.

Lemma eqb_opt_eq (a b : option jsstring) : eqb_opt a b = true <-> a = b.
Proof.
  destruct a as [x|], b as [y|]; simpl;
    try (split; [discriminate | discriminate]); try tauto.
  rewrite eqb_eq. split; [intros ->; reflexivity | intros E; inversion E; auto].
Qed.

Lemma eqb_opt_neq (a b : option jsstring) : eqb_opt a b = false <-> a <> b.
Proof.
  rewrite <- eqb_opt_eq. destruct (eqb_opt a b); split; congruence.
Qed.

Lemma truthy_false (s : jsstring) : truthy s = false <-> s = [].
Proof. destruct s; simpl; split; congruence. Qed.

Lemma trimStart_nil (s : jsstring) :
  trimStart s = [] <-> forallb isWhiteSpace s = true.
Proof.
  induction s as [|c s IH]; simpl; [tauto|].
  destruct (isWhiteSpace c); simpl; [exact IH | split; discriminate].
Qed.

(** What [trimStart] leaves starts with a character that is not white space. *)
Lemma trimStart_head (s : jsstring) c rest :
  trimStart s = c :: rest -> isWhiteSpace c = false.
Proof.
  induction s as [|d s IH]; simpl; [discriminate|].
  destruct (isWhiteSpace d) eqn:E; [exact IH|].
  intros H; inversion H; subst; exact E.
Qed.

Lemma forallb_rev (f : N -> bool) (s : jsstring) :
  forallb f (rev s) = true <-> forallb f s = true.
Proof.
  rewrite !forallb_forall.
  split; intros H x Hx; apply H; [apply in_rev in Hx | apply in_rev]; assumption.
Qed.

(** [s.trim()] is empty exactly when [s] consists of white space only. *)
Lemma trim_nil (s : jsstring) :
  trim s = [] <-> forallb isWhiteSpace s = true.
Proof.
  unfold trim, trimEnd. split.
  - intros H.
    assert (H1 : trimStart (rev (trimStart s)) = []).
    { destruct (trimStart (rev (trimStart s))) as [|d l]; [reflexivity|].
      simpl in H. destruct (rev l); discriminate. }
    apply (proj1 (trimStart_nil _)), (proj1 (forallb_rev _ _)) in H1.
    apply trimStart_nil.
    destruct (trimStart s) as [|c rest] eqn:E; [reflexivity|].
    apply trimStart_head in E.
    rewrite forallb_forall in H1. specialize (H1 c (or_introl eq_refl)). congruence.
  - intros H. apply trimStart_nil in H. rewrite H. reflexivity.
Qed.

(** The test [!content || !content.trim()] of [handleSave]. *)
Lemma blank_iff (s : jsstring) :
  negb (truthy s) || negb (truthy (trim s)) = true <-> trim s = [].
Proof.
  rewrite orb_true_iff, !negb_true_iff, !truthy_false.
  split; [intros [-> | H]; [reflexivity | exact H] | auto].
Qed.

End StringFacts.

(** ** Lists: [filter] and [map] *)

Section ListFacts.

Variable A : Type.

Lemma filter_nil_iff (f : A -> bool) (l : list A) :
  filter f l = [] <-> forall x, In x l -> f x = false.
Proof.
  induction l as [|a l IH]; simpl.
  - split; [intros _ x [] | reflexivity].
  - destruct (f a) eqn:E.
    + split; [discriminate | intros H; specialize (H a (or_introl eq_refl)); congruence].
    + rewrite IH. split.
      * intros H x [<- | Hx]; [exact E | apply H; exact Hx].
      * intros H x Hx; apply H; right; exact Hx.
Qed.

Lemma length_zero_nil (l : list A) : List.length l = 0 <-> l = [].
Proof. destruct l; simpl; split; congruence. Qed.

Lemma existsb_false_iff (f : A -> bool) (l : list A) :
  existsb f l = false <-> forall x, In x l -> f x = false.
Proof.
  induction l as [|a l IH]; simpl.
  - split; [intros _ x [] | reflexivity].
  - rewrite orb_false_iff, IH. split.
    + intros [Ha H] x [<- | Hx]; [exact Ha | apply H; exact Hx].
    + intros H; split; [apply H; left; reflexivity | intros x Hx; apply H; right; exact Hx].
Qed.

Lemma map_unchanged (f : A -> A) (l : list A) :
  (forall x, In x l -> f x = x) -> map f l = l.
Proof.
  induction l as [|a l IH]; simpl; intros H; [reflexivity|].
  rewrite H by (left; reflexivity). rewrite IH; [reflexivity|].
  intros x Hx; apply H; right; exact Hx.
Qed.

End ListFacts.

(** ** Running the handlers *)

Lemma run_handleSave (st : FlowStore) :
  run handleSave st =
  if Nat.eqb (List.length (nodes st)) 0 then
    (st, [ToastError emptyFlowError])
  else if Nat.ltb 1 (List.length (nodesWithoutIncomingEdge (nodes st) (edges st))) then
    (st, [ToastError startNodeError])
  else if Nat.ltb 0 (List.length (nodesWithoutMessage (nodes st))) then
    (st, [ToastError contentError])
  else
    (st, [ToastSuccess savedMessage; ConsoleLog (lit "Saved flow:") (nodes st) (edges st)]).
Proof.
  cbv [run handleSave bind getState emit app].
  destruct (Nat.eqb _ 0); [reflexivity|].
  destruct (Nat.ltb 1 _); [reflexivity|].
  destruct (Nat.ltb 0 _); reflexivity.
Qed.

Lemma run_handleConnect (p : Platform) (connection : Connection.t) (st : FlowStore) :
  run (handleConnect p connection) st =
  if negb (canConnect (edges st) connection) then (st, [ToastError branchWarning])
  else
    match Connection.source connection, Connection.target connection with
    | Some source, Some target =>
        if negb (truthy source) || negb (truthy target) then (st, [])
        else (addEdge (newEdge (generateId (lit "edge-") p) source target connection) st, [])
    | _, _ => (st, [])
    end.
Proof.
  cbv [run handleConnect bind getState emit dispatch ret app].
  destruct (negb (canConnect _ _)); [reflexivity|].
  destruct (Connection.source connection) as [source|]; [|reflexivity].
  destruct (Connection.target connection) as [target|]; [|reflexivity].
  destruct (negb (truthy source) || negb (truthy target)); reflexivity.
Qed.

(** The content check of [handleSave], as a statement about every node. *)
Lemma nodesWithoutMessage_nil (ns : list Node.t) :
  nodesWithoutMessage ns = [] <->
  forall node, In node ns -> trim (TextMessageNodeData.content (Node.data node)) <> [].
Proof.
  unfold nodesWithoutMessage. rewrite filter_nil_iff.
  split; intros H node Hn; specialize (H node Hn).
  - intros E. apply blank_iff in E. congruence.
  - destruct (negb _ || negb _) eqn:E; [|reflexivity].
    apply blank_iff in E. contradiction.
Qed.

(** ** The store's actions *)

Lemma sameHandle_iff (a b : option jsstring) :
  sameHandle a b = true <->
  a = b \/ (truthy_opt a = false /\ truthy_opt b = false).
Proof.
  unfold sameHandle.
  rewrite orb_true_iff, andb_true_iff, !negb_true_iff, eqb_opt_eq. tauto.
Qed.

Lemma connectionExists_iff (edge : Edge.t) (es : list Edge.t) :
  connectionExists edge es = true <->
  exists el, In el es /\ sameConnection el edge.
Proof.
  unfold connectionExists, sameConnection. rewrite existsb_exists.
  split; intros (el & Hin & H); exists el; (split; [exact Hin|]).
  - rewrite !andb_true_iff, !eqb_eq, !sameHandle_iff in H. tauto.
  - rewrite !andb_true_iff, !eqb_eq, !sameHandle_iff. tauto.
Qed.

(** C6, as stated, fails: adding the edge [e2] from [A] to [B] to a store
    that already has the edge [e1] from [A] to [B] leaves the edges as they
    were, without [e2]; and an edge without a target is not inserted
    either. *)
Lemma addEdge_skips_present_connection :
  edges (addEdge sameConnectionEdge storeWithEdge) = edges storeWithEdge
  /\ ~ In sameConnectionEdge (edges (addEdge sameConnectionEdge storeWithEdge))
  /\ edges (addEdge edgeWithoutTarget useFlowStore) = []
  /\ ~ In edgeWithoutTarget (edges (addEdge edgeWithoutTarget useFlowStore)).
Proof.
  split; [reflexivity|]. split; [|split; [reflexivity | intros []]].
  intros [H | []]. vm_compute in H. discriminate.
Qed.

(** C6, amended: [addEdge edge] hands the edge to reactflow's helper.  An
    edge with a source and a target whose connection (source, target and the
    two handles, absent and empty handles alike) no edge of the collection
    makes is inserted at the end; an edge without a source or a target, or
    whose connection is already there, leaves the collection unchanged.
    Ids are not compared.  Every edge that was there stays, and nodes and
    selection are untouched. *)
Theorem addEdge_inserts_new_connection (edge : Edge.t) (state : FlowStore) :
  (Edge.source edge <> [] ->
   Edge.target edge <> [] ->
   (forall el, In el (edges state) -> ~ sameConnection el edge) ->
   edges (addEdge edge state) = edges state ++ [edge]
   /\ In edge (edges (addEdge edge state)))
  /\ (Edge.source edge = [] \/ Edge.target edge = []
      \/ (exists el, In el (edges state) /\ sameConnection el edge) ->
      edges (addEdge edge state) = edges state)
  /\ (forall e, In e (edges state) -> In e (edges (addEdge edge state)))
  /\ nodes (addEdge edge state) = nodes state
  /\ selectedNodeId (addEdge edge state) = selectedNodeId state.
Proof.
  unfold addEdge, addReactFlowEdge; simpl.
  destruct (connectionExists edge (edges state)) eqn:E.
  - apply connectionExists_iff in E.
    split; [|split; [|split; [|split; reflexivity]]].
    + intros _ _ H. exfalso. destruct E as (el & Hin & Hsame). exact (H el Hin Hsame).
    + intros _. destruct (negb _ || negb _); reflexivity.
    + intros e He. destruct (negb _ || negb _); exact He.
  - assert (Hno : ~ exists el, In el (edges state) /\ sameConnection el edge).
    { intros H. apply connectionExists_iff in H. congruence. }
    split; [|split; [|split; [|split; reflexivity]]].
    + intros Hs Ht _.
      destruct (Edge.source edge); [contradiction|].
      destruct (Edge.target edge); [contradiction|]. simpl.
      split; [reflexivity | apply in_or_app; right; left; reflexivity].
    + intros [H | [H | H]]; [rewrite H; reflexivity | rewrite H | contradiction].
      destruct (negb (truthy (Edge.source edge))); reflexivity.
    + intros e He. destruct (negb _ || negb _); [exact He|].
      apply in_or_app. left. exact He.
Qed.

(** A first edge added to the initial store is inserted. *)
Lemma addEdge_inserts_new_connection_initial :
  edges (addEdge sameConnectionEdge useFlowStore) =
    edges useFlowStore ++ [sameConnectionEdge]
  /\ In sameConnectionEdge (edges (addEdge sameConnectionEdge useFlowStore)).
Proof.
  apply (proj1 (addEdge_inserts_new_connection sameConnectionEdge useFlowStore)).
  - vm_compute. discriminate.
  - vm_compute. discriminate.
  - intros el [].
Defined.

(** C7: [updateNodeData nodeId data] rewrites, position by position, each
    node whose id is [nodeId] to the same node with [data]'s fields merged
    into its payload (id, type and position kept), and leaves every other
    node as it was; edges and selection are unchanged; when no node has the
    id, the whole state is unchanged.  Merging replaces the content when the
    payload carries one and keeps it otherwise. *)
Theorem updateNodeData_frame (nodeId : jsstring) (data : PartialData.t)
    (state : FlowStore) :
  edges (updateNodeData nodeId data state) = edges state
  /\ selectedNodeId (updateNodeData nodeId data state) = selectedNodeId state
  /\ List.length (nodes (updateNodeData nodeId data state)) = List.length (nodes state)
  /\ (forall i node, nth_error (nodes state) i = Some node ->
        (Node.id node = nodeId ->
           nth_error (nodes (updateNodeData nodeId data state)) i =
           Some (Node.mk (Node.id node) (Node.type node) (Node.position node)
                   (mergeData (Node.data node) data)))
        /\ (Node.id node <> nodeId ->
              nth_error (nodes (updateNodeData nodeId data state)) i = Some node))
  /\ (forall d c, mergeData d (PartialData.mk (Some c)) = TextMessageNodeData.mk c)
  /\ (forall d, mergeData d (PartialData.mk None) = d)
  /\ ((forall node, In node (nodes state) -> Node.id node <> nodeId) ->
        updateNodeData nodeId data state = state).
Proof.
  unfold updateNodeData; simpl.
  split; [reflexivity|]. split; [reflexivity|].
  split; [apply length_map|].
  split.
  { intros i node Hi. rewrite nth_error_map, Hi; simpl. split; intros H.
    - rewrite (proj2 (eqb_eq _ _) H). reflexivity.
    - rewrite (proj2 (eqb_neq _ _) H). reflexivity. }
  split; [reflexivity|]. split; [reflexivity|].
  intros H. rewrite map_unchanged.
  - destruct state; reflexivity.
  - intros node Hn. rewrite (proj2 (eqb_neq _ _) (H node Hn)). reflexivity.
Qed.

(** C9: [addNode node] appends the node at the end of the node collection
    and selects it; the nodes that were there keep their positions and
    values, and the edge collection is unchanged. *)
Theorem addNode_appends (node : Node.t) (state : FlowStore) :
  nodes (addNode node state) = nodes state ++ [node]
  /\ nth_error (nodes (addNode node state)) (List.length (nodes state)) = Some node
  /\ (forall i n, nth_error (nodes state) i = Some n ->
        nth_error (nodes (addNode node state)) i = Some n)
  /\ selectedNodeId (addNode node state) = Some (Node.id node)
  /\ edges (addNode node state) = edges state.
Proof.
  unfold addNode; simpl. repeat split.
  - rewrite nth_error_app2 by lia. rewrite Nat.sub_diag. reflexivity.
  - intros i n Hi. rewrite nth_error_app1; [exact Hi|].
    apply nth_error_Some. congruence.
Qed.

(** C10: the store starts with exactly one node (id [node-1], type
    [textMessage], at (250, 80), saying "Hello! How can I help you today?"),
    no edge and no selection; that state passes the three checks of
    [handleSave], and saving it right away succeeds and hands over the
    snapshot. *)
Theorem initial_store_saves :
  useFlowStore =
    mkStore
      [ Node.mk (lit "node-1") (lit "textMessage")
          (XYPosition.mk 250%float 80%float)
          (TextMessageNodeData.mk (lit "Hello! How can I help you today?")) ]
      [] None
  /\ List.length (nodes useFlowStore) = 1
  /\ List.length (nodesWithoutIncomingEdge (nodes useFlowStore) (edges useFlowStore)) = 1
  /\ nodesWithoutMessage (nodes useFlowStore) = []
  /\ run handleSave useFlowStore =
       (useFlowStore,
        [ ToastSuccess (lit "Flow saved successfully!");
          ConsoleLog (lit "Saved flow:") (nodes useFlowStore) (edges useFlowStore) ]).
Proof.
  repeat split; vm_compute; reflexivity.
Qed.

(** ** Connecting: [canConnect] and [handleConnect] *)

(** An existing edge blocks a connection when it leaves the connection's
    source and either the connection names no source handle or the edge uses
    the very handle the connection names. *)
Lemma hasExistingEdge_false (es : list Edge.t) (c : Connection.t) :
  hasExistingEdge es c = false <->
  forall edge, In edge es ->
    Some (Edge.source edge) = Connection.source c ->
    truthy_opt (Connection.sourceHandle c) = true
    /\ Edge.sourceHandle edge <> Connection.sourceHandle c.
Proof.
  unfold hasExistingEdge. rewrite existsb_false_iff.
  split; intros H edge He.
  - intros Hs. specialize (H edge He).
    rewrite (proj2 (eqb_opt_eq _ _) Hs) in H. simpl in H.
    apply orb_false_iff in H. destruct H as [H1 H2].
    apply negb_false_iff in H1. apply eqb_opt_neq in H2. auto.
  - destruct (eqb_opt (Some (Edge.source edge)) (Connection.source c)) eqn:Es;
      [|reflexivity].
    apply eqb_opt_eq in Es. destruct (H edge He Es) as [H1 H2].
    rewrite H1. apply eqb_opt_neq in H2. rewrite H2. reflexivity.
Qed.

(** On every call [handleConnect] makes, reactflow's helper appends: the
    endpoints are not empty and [canConnect] has excluded any edge from the
    same source through the same handle. *)
Lemma addReactFlowEdge_accepted (id source target : jsstring) (c : Connection.t)
    (es : list Edge.t) :
  canConnect es c = true ->
  Connection.source c = Some source ->
  truthy source = true ->
  truthy target = true ->
  addReactFlowEdge (newEdge id source target c) es =
    es ++ [newEdge id source target c].
Proof.
  intros Hc Es Hs Ht. unfold addReactFlowEdge. simpl Edge.source. simpl Edge.target.
  rewrite Hs, Ht. simpl.
  assert (Hex : hasExistingEdge es c = false).
  { unfold canConnect in Hc. destruct (negb _); [discriminate|].
    destruct (hasExistingEdge es c); [discriminate | reflexivity]. }
  replace (connectionExists (newEdge id source target c) es) with false; [reflexivity|].
  symmetry. unfold connectionExists. apply existsb_false_iff. intros el Hin.
  simpl Edge.source. simpl Edge.target. simpl Edge.sourceHandle. simpl Edge.targetHandle.
  destruct (eqb (Edge.source el) source) eqn:E; [|reflexivity].
  apply eqb_eq in E.
  destruct (proj1 (hasExistingEdge_false es c) Hex el Hin) as [Htr Hd];
    [rewrite Es; congruence|].
  unfold sameHandle at 1. rewrite (proj2 (eqb_opt_neq _ _) Hd), Htr.
  simpl.
  destruct (eqb (Edge.target el) target), (truthy_opt (Edge.sourceHandle el));
    reflexivity.
Qed.

(** A second edge from node N and handle H is refused whenever an edge from
    N/H is already there, with or without a handle. *)
Lemma canConnect_duplicate_rejected (es : list Edge.t) (c : Connection.t) (edge : Edge.t) :
  In edge es ->
  Some (Edge.source edge) = Connection.source c ->
  Edge.sourceHandle edge = Connection.sourceHandle c ->
  canConnect es c = false.
Proof.
  intros He Hs Hh. unfold canConnect.
  destruct (negb _); [reflexivity|].
  destruct (hasExistingEdge es c) eqn:E; [reflexivity|].
  destruct (proj1 (hasExistingEdge_false es c) E edge He Hs) as [_ H].
  contradiction.
Qed.

(** C2, as stated, fails: the connection has a source, no existing edge
    leaves that source through the same handle (the only edge uses [h1], the
    connection the implicit handle), and source and target differ; still the
    predicate rejects the connection. *)
Lemma canConnect_rejects_other_handle :
  specConnectionValid [edgeFromHandle] connectionWithoutHandle
  /\ canConnect [edgeFromHandle] connectionWithoutHandle = false.
Proof.
  unfold specConnectionValid. repeat split.
  - intros edge [<- | []] [_ H]. vm_compute in H. discriminate.
  - vm_compute. discriminate.
Qed.

(** C2, amended: [canConnect] accepts exactly when the connection has a
    (non-empty) source, no edge leaves that source unless the connection
    names a (non-empty) source handle and the edge uses another one, and the
    source differs from the target.  A connection without a source handle is
    thus blocked by any edge from its source.  A self-loop is rejected
    whatever the edges are. *)
Theorem canConnect_iff (es : list Edge.t) (c : Connection.t) :
  (canConnect es c = true <->
     truthy_opt (Connection.source c) = true
     /\ (forall edge, In edge es ->
           Some (Edge.source edge) = Connection.source c ->
           truthy_opt (Connection.sourceHandle c) = true
           /\ Edge.sourceHandle edge <> Connection.sourceHandle c)
     /\ Connection.source c <> Connection.target c)
  /\ (Connection.source c = Connection.target c -> canConnect es c = false).
Proof.
  unfold canConnect. split.
  - rewrite <- hasExistingEdge_false, <- eqb_opt_neq.
    destruct (truthy_opt (Connection.source c)); simpl;
      [|split; [discriminate | intros [H _]; discriminate]].
    destruct (hasExistingEdge es c);
      [split; [discriminate | intros (_ & H & _); discriminate]|].
    destruct (eqb_opt (Connection.source c) (Connection.target c));
      [split; [discriminate | intros (_ & _ & H); discriminate] | tauto].
  - intros H. apply eqb_opt_eq in H. rewrite H.
    destruct (negb _); [reflexivity|]. destruct (hasExistingEdge es c); reflexivity.
Qed.

(** C3: a connect gesture the predicate rejects only warns the user, with
    "Each message can branch to only one next step.", and leaves the store
    (nodes, edges and selection) exactly as it was. *)
Theorem handleConnect_rejected (p : Platform) (c : Connection.t) (st : FlowStore) :
  canConnect (edges st) c = false ->
  run (handleConnect p c) st =
    (st, [ToastError (lit "Each message can branch to only one next step.")]).
Proof.
  intros H. rewrite run_handleConnect, H. reflexivity.
Qed.

(** On the initial store, connecting [node-1] to itself is refused that way. *)
Lemma handleConnect_rejected_self_loop :
  canConnect (edges useFlowStore) (connectionBetween "node-1" "node-1") = false
  /\ run (handleConnect (uuidPlatform "u-1") (connectionBetween "node-1" "node-1")) useFlowStore =
       (useFlowStore, [ToastError (lit "Each message can branch to only one next step.")]).
Proof.
  split; [reflexivity|].
  apply (handleConnect_rejected (uuidPlatform "u-1") (connectionBetween "node-1" "node-1") useFlowStore).
  reflexivity.
Defined.

(** C5, as stated, fails: the predicate accepts a connection without a
    target, and the handler then adds no edge (and shows nothing). *)
Lemma handleConnect_accepted_without_target :
  canConnect (edges useFlowStore) danglingConnection = true
  /\ run (handleConnect (uuidPlatform "u-1") danglingConnection) useFlowStore =
       (useFlowStore, [])
  /\ edges (fst (run (handleConnect (uuidPlatform "u-1") danglingConnection) useFlowStore)) = [].
Proof.
  repeat split.
Qed.

(** C5, amended: when the predicate accepts a connection that has a
    (non-empty) target, the handler builds an edge with the identifier the
    platform generated, the connection's source, target and handles, and the
    fixed styling, and adds it through the store's [addEdge]: the edge
    collection becomes the old one followed by that edge; nothing is shown
    and nodes and selection stay. *)
Theorem handleConnect_accepted (p : Platform) (c : Connection.t) (st : FlowStore) :
  canConnect (edges st) c = true ->
  truthy_opt (Connection.target c) = true ->
  exists source target edge,
    Connection.source c = Some source
    /\ Connection.target c = Some target
    /\ edge =
         Edge.mk (generateId (lit "edge-") p) source target
           (Connection.sourceHandle c) (Connection.targetHandle c)
           (Some (lit "smoothstep")) (Some ArrowClosed)
           (Some (EdgeStyle.mk (lit "#6366f1") 2%float))
    /\ run (handleConnect p c) st = (addEdge edge st, [])
    /\ edges (fst (run (handleConnect p c) st)) = edges st ++ [edge]
    /\ In edge (edges (fst (run (handleConnect p c) st)))
    /\ nodes (fst (run (handleConnect p c) st)) = nodes st
    /\ selectedNodeId (fst (run (handleConnect p c) st)) = selectedNodeId st.
Proof.
  intros Hc Ht. rewrite run_handleConnect, Hc. simpl negb. cbv iota.
  destruct (Connection.source c) as [source|] eqn:Es;
    [|unfold canConnect in Hc; rewrite Es in Hc; discriminate].
  destruct (Connection.target c) as [target|]; [|discriminate].
  assert (Hs : truthy source = true).
  { unfold canConnect in Hc. rewrite Es in Hc. simpl in Hc.
    destruct (truthy source); [reflexivity | discriminate]. }
  simpl in Ht. rewrite Hs, Ht. simpl negb. simpl orb. cbv iota.
  pose proof (@addReactFlowEdge_accepted (generateId (lit "edge-") p) source target c
                (edges st) Hc Es Hs Ht) as Hadd.
  unfold newEdge in Hadd.
  exists source, target. eexists.
  split; [reflexivity|]. split; [reflexivity|]. split; [reflexivity|].
  split; [reflexivity|].
  unfold addEdge, newEdge. cbn [fst edges nodes selectedNodeId]. rewrite Hadd.
  repeat split. apply in_or_app. right. left. reflexivity.
Qed.

(** On the initial store, without [crypto.randomUUID], connecting [node-1]
    to [node-2] adds the edge [edge-1700000000000]. *)
Lemma handleConnect_accepted_first_edge :
  canConnect (edges useFlowStore) (connectionBetween "node-1" "node-2") = true
  /\ truthy_opt (Connection.target (connectionBetween "node-1" "node-2")) = true
  /\ exists source target edge,
       Connection.source (connectionBetween "node-1" "node-2") = Some source
       /\ Connection.target (connectionBetween "node-1" "node-2") = Some target
       /\ edge =
            Edge.mk (generateId (lit "edge-") (legacyPlatform "1700000000000"))
              source target
              (Connection.sourceHandle (connectionBetween "node-1" "node-2"))
              (Connection.targetHandle (connectionBetween "node-1" "node-2"))
              (Some (lit "smoothstep")) (Some ArrowClosed)
              (Some (EdgeStyle.mk (lit "#6366f1") 2%float))
       /\ run (handleConnect (legacyPlatform "1700000000000") (connectionBetween "node-1" "node-2"))
            useFlowStore = (addEdge edge useFlowStore, [])
       /\ edges (fst (run (handleConnect (legacyPlatform "1700000000000")
                             (connectionBetween "node-1" "node-2")) useFlowStore)) =
          edges useFlowStore ++ [edge]
       /\ In edge (edges (fst (run (handleConnect (legacyPlatform "1700000000000")
                                     (connectionBetween "node-1" "node-2")) useFlowStore)))
       /\ nodes (fst (run (handleConnect (legacyPlatform "1700000000000")
                             (connectionBetween "node-1" "node-2")) useFlowStore)) =
          nodes useFlowStore
       /\ selectedNodeId (fst (run (handleConnect (legacyPlatform "1700000000000")
                                      (connectionBetween "node-1" "node-2")) useFlowStore)) =
          selectedNodeId useFlowStore.
Proof.
  split; [reflexivity|]. split; [reflexivity|].
  apply (handleConnect_accepted (legacyPlatform "1700000000000")
           (connectionBetween "node-1" "node-2") useFlowStore); reflexivity.
Defined.

(** ** Saving: [handleSave] *)

(** The start nodes [handleSave] counts: the nodes no edge points to. *)
Lemma nodesWithoutIncomingEdge_In (ns : list Node.t) (es : list Edge.t) (node : Node.t) :
  In node (nodesWithoutIncomingEdge ns es) <->
  In node ns /\ forall edge, In edge es -> Edge.target edge <> Node.id node.
Proof.
  unfold nodesWithoutIncomingEdge.
  rewrite filter_In, negb_true_iff, existsb_false_iff.
  split; intros [Hn H]; split; try exact Hn; intros edge He.
  - apply eqb_neq, H, He.
  - apply eqb_neq, H, He.
Qed.

(** C1, as stated, fails: in a two-node cycle (built by two accepted
    gestures) the number of nodes without an incoming edge is zero, not one,
    and the save is not rejected: it succeeds. *)
Lemma handleSave_accepts_no_start_node :
  List.length (edges twoInCycle) = 2
  /\ nodes twoInCycle <> []
  /\ List.length (nodesWithoutIncomingEdge (nodes twoInCycle) (edges twoInCycle)) = 0
  /\ run handleSave twoInCycle <> (twoInCycle, [ToastError startNodeError])
  /\ run handleSave twoInCycle =
       (twoInCycle,
        [ ToastSuccess savedMessage;
          ConsoleLog (lit "Saved flow:") (nodes twoInCycle) (edges twoInCycle) ]).
Proof.
  repeat split; try (vm_compute; discriminate).
Qed.

(** C1, amended: on a non-empty node collection, the start-node check
    rejects the save, with "Only one starting node is allowed. Connect your
    flow before saving." and before any look at the contents, whenever more
    than one node has no incoming edge; with at most one such node (none
    included) the check passes and the outcome is that of the content check.
    The nodes counted are those no edge targets. *)
Theorem handleSave_start_node_check (st : FlowStore) :
  nodes st <> [] ->
  (1 < List.length (nodesWithoutIncomingEdge (nodes st) (edges st)) ->
     run handleSave st =
       (st, [ToastError (lit "Only one starting node is allowed. Connect your flow before saving.")]))
  /\ (List.length (nodesWithoutIncomingEdge (nodes st) (edges st)) <= 1 ->
        run handleSave st =
          if Nat.ltb 0 (List.length (nodesWithoutMessage (nodes st)))
          then (st, [ToastError contentError])
          else (st, [ ToastSuccess savedMessage;
                      ConsoleLog (lit "Saved flow:") (nodes st) (edges st) ]))
  /\ (forall node,
        In node (nodesWithoutIncomingEdge (nodes st) (edges st)) <->
        In node (nodes st)
        /\ forall edge, In edge (edges st) -> Edge.target edge <> Node.id node).
Proof.
  intros Hne. rewrite run_handleSave.
  destruct (Nat.eqb_spec (List.length (nodes st)) 0) as [E|_];
    [apply length_zero_nil in E; contradiction|].
  split; [|split].
  - intros H. apply Nat.ltb_lt in H. rewrite H. reflexivity.
  - intros H. apply Nat.ltb_ge in H. rewrite H. reflexivity.
  - intros node. apply nodesWithoutIncomingEdge_In.
Qed.

(** Two disconnected nodes are refused by the start-node check, although
    one of them would also fail the content check. *)
Lemma handleSave_rejects_two_disconnected :
  nodes twoDisconnected <> []
  /\ 1 < List.length (nodesWithoutIncomingEdge (nodes twoDisconnected) (edges twoDisconnected))
  /\ run handleSave twoDisconnected =
       (twoDisconnected,
        [ToastError (lit "Only one starting node is allowed. Connect your flow before saving.")]).
Proof.
  assert (Hne : nodes twoDisconnected <> []) by (vm_compute; discriminate).
  assert (Hlt : 1 < List.length (nodesWithoutIncomingEdge (nodes twoDisconnected)
                                   (edges twoDisconnected)))
    by (vm_compute; lia).
  split; [exact Hne|]. split; [exact Hlt|].
  exact (proj1 (handleSave_start_node_check twoDisconnected Hne) Hlt).
Defined.

(** C4: [handleSave] makes three checks in this order and stops at the first
    that fails, each with an error message of its own: the node collection
    is empty; more than one node has no incoming edge; some node's content,
    trimmed, is empty.  When all pass it shows the success message and hands
    over the current nodes and edges.  The store is never changed.  A single
    node whose content is not blank, with no edge, saves. *)
Theorem handleSave_checks_in_order (st : FlowStore) :
  (nodes st = [] ->
     run handleSave st = (st, [ToastError (lit "Add at least one node before saving.")]))
  /\ (nodes st <> [] ->
      1 < List.length (nodesWithoutIncomingEdge (nodes st) (edges st)) ->
      run handleSave st =
        (st, [ToastError (lit "Only one starting node is allowed. Connect your flow before saving.")]))
  /\ (nodes st <> [] ->
      List.length (nodesWithoutIncomingEdge (nodes st) (edges st)) <= 1 ->
      (exists node, In node (nodes st)
                    /\ trim (TextMessageNodeData.content (Node.data node)) = []) ->
      run handleSave st =
        (st, [ToastError (lit "Every node needs message content before saving.")]))
  /\ (nodes st <> [] ->
      List.length (nodesWithoutIncomingEdge (nodes st) (edges st)) <= 1 ->
      (forall node, In node (nodes st) ->
                    trim (TextMessageNodeData.content (Node.data node)) <> []) ->
      run handleSave st =
        (st, [ ToastSuccess (lit "Flow saved successfully!");
               ConsoleLog (lit "Saved flow:") (nodes st) (edges st) ]))
  /\ (emptyFlowError <> startNodeError
      /\ emptyFlowError <> contentError
      /\ startNodeError <> contentError)
  /\ (forall node sel,
        trim (TextMessageNodeData.content (Node.data node)) <> [] ->
        run handleSave (mkStore [node] [] sel) =
          (mkStore [node] [] sel,
           [ ToastSuccess (lit "Flow saved successfully!");
             ConsoleLog (lit "Saved flow:") [node] [] ])).
Proof.
  assert (Hgen : forall s : FlowStore,
    nodes s <> [] ->
    List.length (nodesWithoutIncomingEdge (nodes s) (edges s)) <= 1 ->
    (forall node, In node (nodes s) ->
                  trim (TextMessageNodeData.content (Node.data node)) <> []) ->
    run handleSave s =
      (s, [ ToastSuccess (lit "Flow saved successfully!");
            ConsoleLog (lit "Saved flow:") (nodes s) (edges s) ])).
  { intros s Hne Hs Hc. rewrite run_handleSave.
    destruct (Nat.eqb_spec (List.length (nodes s)) 0) as [E|_];
      [apply length_zero_nil in E; contradiction|].
    apply Nat.ltb_ge in Hs. rewrite Hs.
    apply nodesWithoutMessage_nil in Hc. rewrite Hc. reflexivity. }
  split; [|split; [|split; [|split; [|split]]]].
  - intros E. rewrite run_handleSave, E. reflexivity.
  - intros Hne Hs. rewrite run_handleSave.
    destruct (Nat.eqb_spec (List.length (nodes st)) 0) as [E|_];
      [apply length_zero_nil in E; contradiction|].
    apply Nat.ltb_lt in Hs. rewrite Hs. reflexivity.
  - intros Hne Hs (node & Hn & Hb). rewrite run_handleSave.
    destruct (Nat.eqb_spec (List.length (nodes st)) 0) as [E|_];
      [apply length_zero_nil in E; contradiction|].
    apply Nat.ltb_ge in Hs. rewrite Hs.
    destruct (nodesWithoutMessage (nodes st)) as [|m ms] eqn:Em; [|reflexivity].
    exfalso. exact (proj1 (nodesWithoutMessage_nil _) Em node Hn Hb).
  - apply Hgen.
  - repeat split; vm_compute; discriminate.
  - intros node sel Hc.
    apply (Hgen (mkStore [node] [] sel)); simpl.
    + discriminate.
    + lia.
    + intros n [<- | []]. exact Hc.
Qed.

(** C8: a save that fails (empty flow, more than one start node, or a node
    without content) only notifies the user: the outcome is the store as it
    was, with one error toast and nothing handed over.  And no save, failed
    or not, changes the store. *)
Theorem handleSave_rejected_no_mutation (st : FlowStore) :
  nodes st = []
  \/ 1 < List.length (nodesWithoutIncomingEdge (nodes st) (edges st))
  \/ (exists node, In node (nodes st)
                   /\ trim (TextMessageNodeData.content (Node.data node)) = []) ->
  (exists message, run handleSave st = (st, [ToastError message]))
  /\ nodes (fst (run handleSave st)) = nodes st
  /\ edges (fst (run handleSave st)) = edges st
  /\ selectedNodeId (fst (run handleSave st)) = selectedNodeId st
  /\ (forall st', fst (run handleSave st') = st').
Proof.
  intros H.
  assert (Hall : forall st', fst (run handleSave st') = st').
  { intros st'. rewrite run_handleSave.
    destruct (Nat.eqb _ 0); [reflexivity|].
    destruct (Nat.ltb 1 _); [reflexivity|].
    destruct (Nat.ltb 0 _); reflexivity. }
  split; [|rewrite Hall; auto].
  rewrite run_handleSave.
  destruct (Nat.eqb_spec (List.length (nodes st)) 0) as [E|Hne]; [eauto|].
  destruct (Nat.ltb_spec 1 (List.length (nodesWithoutIncomingEdge (nodes st) (edges st))))
    as [Hs|Hs]; [eauto|].
  destruct (nodesWithoutMessage (nodes st)) as [|m ms] eqn:Em; [|simpl; eauto].
  exfalso. destruct H as [H | [H | (node & Hn & Hb)]].
  - apply Hne. rewrite H. reflexivity.
  - lia.
  - exact (proj1 (nodesWithoutMessage_nil _) Em node Hn Hb).
Qed.

(** Saving the empty flow fails and leaves the store empty. *)
Lemma handleSave_rejected_empty_flow :
  (nodes emptyStore = []
   \/ 1 < List.length (nodesWithoutIncomingEdge (nodes emptyStore) (edges emptyStore))
   \/ (exists node, In node (nodes emptyStore)
                    /\ trim (TextMessageNodeData.content (Node.data node)) = []))
  /\ (exists message, run handleSave emptyStore = (emptyStore, [ToastError message]))
  /\ nodes (fst (run handleSave emptyStore)) = nodes emptyStore
  /\ edges (fst (run handleSave emptyStore)) = edges emptyStore
  /\ selectedNodeId (fst (run handleSave emptyStore)) = selectedNodeId emptyStore
  /\ (forall st', fst (run handleSave st') = st').
Proof.
  split; [left; reflexivity|].
  apply (handleSave_rejected_no_mutation emptyStore). left. reflexivity.
Defined.

(** * Further properties of the handlers and the store *)

(** ** Running handlers in sequence *)

Lemma run_seq (h k : Handler unit) (st : FlowStore) :
  run (h ;; k) st =
  (fst (run k (fst (run h st))), snd (run h st) ++ snd (run k (fst (run h st)))).
Proof.
  unfold run, bind.
  destruct (h st) as [[[] st1] out1]; simpl.
  destruct (k st1) as [[[] st2] out2]; reflexivity.
Qed.

Lemma run_handleDrop (p : Platform) (canvas : Canvas) (event : DropEvent) (st : FlowStore) :
  run (handleDrop p canvas event) st =
  if negb (truthy (dataTransferType event)) then (st, [])
  else
    match reactFlowWrapper canvas, reactFlowInstance canvas with
    | Some bounds, Some project =>
        (addNode
           (Node.mk (generateId (lit "node-") p) (dataTransferType event)
              (project (XYPosition.mk (clientX event - left bounds)%float
                                      (clientY event - top bounds)%float))
              (TextMessageNodeData.mk (lit "New chatbot message")))
           st, [])
    | _, _ => (st, [])
    end.
Proof.
  cbv [run handleDrop dispatch ret].
  destruct (negb _); [reflexivity|].
  destruct (reactFlowWrapper canvas); [|reflexivity].
  destruct (reactFlowInstance canvas); reflexivity.
Qed.

Lemma run_onChange (value : jsstring) (st : FlowStore) :
  run (onChange value) st =
  match selectedNode st with
  | Some node => (updateNodeData (Node.id node) (PartialData.mk (Some value)) st, [])
  | None => (st, [])
  end.
Proof.
  cbv [run onChange bind getState dispatch ret app].
  destruct (selectedNode st); reflexivity.
Qed.

(** ** [canConnect] against a growing edge collection *)

Lemma hasExistingEdge_app (es es' : list Edge.t) (c : Connection.t) :
  hasExistingEdge (es ++ es') c = hasExistingEdge es c || hasExistingEdge es' c.
Proof. unfold hasExistingEdge. apply existsb_app. Qed.

(** X1: a connection is valid against two edge collections put together
    exactly when it is valid against each: more edges never turn a refused
    connection into an accepted one. *)
Theorem canConnect_app (es es' : list Edge.t) (c : Connection.t) :
  canConnect (es ++ es') c = canConnect es c && canConnect es' c.
Proof.
  unfold canConnect. rewrite hasExistingEdge_app.
  destruct (negb (truthy_opt (Connection.source c))); [reflexivity|].
  destruct (hasExistingEdge es c), (hasExistingEdge es' c),
    (eqb_opt (Connection.source c) (Connection.target c)); reflexivity.
Qed.

(** What an accepted connection with a target leaves in the store. *)
Lemma handleConnect_accepted_store (p : Platform) (c : Connection.t) (st : FlowStore) :
  canConnect (edges st) c = true ->
  truthy_opt (Connection.target c) = true ->
  exists source target,
    Connection.source c = Some source /\ Connection.target c = Some target
    /\ source <> [] /\ target <> [] /\ source <> target
    /\ fst (run (handleConnect p c) st) =
         mkStore (nodes st)
           (edges st ++ [newEdge (generateId (lit "edge-") p) source target c])
           (selectedNodeId st).
Proof.
  intros Hc Ht. rewrite run_handleConnect, Hc. simpl negb. cbv iota.
  pose proof Hc as Hc'. unfold canConnect in Hc'.
  destruct (Connection.source c) as [source|] eqn:Es; [|discriminate].
  destruct (Connection.target c) as [target|] eqn:Et; [|discriminate].
  simpl in Hc', Ht.
  destruct (truthy source) eqn:Ts; [|discriminate]. rewrite Ht. simpl in Hc'.
  destruct (hasExistingEdge (edges st) c); [discriminate|].
  destruct (eqb source target) eqn:E; [discriminate|].
  simpl negb. simpl orb. cbv iota. simpl fst. unfold addEdge.
  rewrite (@addReactFlowEdge_accepted (generateId (lit "edge-") p) source target c
             (edges st) Hc Es Ts Ht).
  exists source, target. repeat split.
  - intros ->. discriminate.
  - intros ->. discriminate.
  - apply eqb_neq. exact E.
Qed.

(** A gesture that adds no edge: refused, or accepted without a target. *)
Lemma handleConnect_other_store (p : Platform) (c : Connection.t) (st : FlowStore) :
  canConnect (edges st) c = false \/ truthy_opt (Connection.target c) = false ->
  fst (run (handleConnect p c) st) = st.
Proof.
  intros H. rewrite run_handleConnect.
  destruct (canConnect (edges st) c) eqn:Hc; [|reflexivity].
  destruct H as [H|H]; [discriminate|]. simpl.
  destruct (Connection.source c) as [source|]; [|reflexivity].
  destruct (Connection.target c) as [target|]; [|reflexivity].
  simpl in H. rewrite H, orb_true_r. reflexivity.
Qed.

(** X2: once a connection has been accepted and its edge added, the same
    connection, tried again, is refused with the warning and changes
    nothing, whatever identifier the platform would give. *)
Theorem handleConnect_again_rejected (p p' : Platform) (c : Connection.t) (st : FlowStore) :
  canConnect (edges st) c = true ->
  truthy_opt (Connection.target c) = true ->
  run (handleConnect p' c) (fst (run (handleConnect p c) st)) =
    (fst (run (handleConnect p c) st),
     [ToastError (lit "Each message can branch to only one next step.")]).
Proof.
  intros Hc Ht.
  destruct (@handleConnect_accepted_store p c st Hc Ht)
    as (source & target & Es & Et & _ & _ & _ & Hst).
  rewrite Hst, run_handleConnect. simpl edges.
  rewrite (@canConnect_duplicate_rejected _ c
             (newEdge (generateId (lit "edge-") p) source target c));
    [reflexivity | apply in_or_app; right; left; reflexivity
     | simpl; congruence | reflexivity].
Qed.

(** Connecting the initial node to a second one twice: the second attempt
    is refused. *)
Lemma handleConnect_again_rejected_initial :
  canConnect (edges useFlowStore) (connectionBetween "node-1" "node-2") = true
  /\ truthy_opt (Connection.target (connectionBetween "node-1" "node-2")) = true
  /\ run (handleConnect (uuidPlatform "u-2") (connectionBetween "node-1" "node-2"))
       (fst (run (handleConnect (uuidPlatform "u-1") (connectionBetween "node-1" "node-2"))
               useFlowStore)) =
     (fst (run (handleConnect (uuidPlatform "u-1") (connectionBetween "node-1" "node-2"))
             useFlowStore),
      [ToastError (lit "Each message can branch to only one next step.")]).
Proof.
  split; [reflexivity|]. split; [reflexivity|].
  apply (@handleConnect_again_rejected (uuidPlatform "u-1") (uuidPlatform "u-2")
           (connectionBetween "node-1" "node-2") useFlowStore); reflexivity.
Defined.

(** ** What connecting keeps true of the edges *)

Lemma NoDup_snoc (A : Type) (l : list A) (a : A) :
  NoDup l -> ~ In a l -> NoDup (l ++ [a]).
Proof.
  induction 1 as [|x l Hx Hl IH]; simpl; intros Ha.
  - constructor; [intros [] | constructor].
  - constructor.
    + intros H. apply in_app_or in H. destruct H as [H | [H | []]]; [tauto|].
      apply Ha. left. symmetry. exact H.
    + apply IH. intros H. apply Ha. right. exact H.
Qed.

Lemma canConnect_true (es : list Edge.t) (c : Connection.t) :
  canConnect es c = true ->
  truthy_opt (Connection.source c) = true
  /\ hasExistingEdge es c = false
  /\ eqb_opt (Connection.source c) (Connection.target c) = false.
Proof.
  unfold canConnect.
  destruct (truthy_opt (Connection.source c)); simpl; [|discriminate].
  destruct (hasExistingEdge es c); [discriminate|].
  destruct (eqb_opt _ _); [discriminate | auto].
Qed.

(** A connect gesture, accepted or not, keeps the edges well branched. *)
Lemma handleConnect_keeps_wellBranched (p : Platform) (c : Connection.t) (st : FlowStore) :
  wellBranched (edges st) ->
  wellBranched (edges (fst (run (handleConnect p c) st))).
Proof.
  intros [Hnd Hall].
  destruct (canConnect (edges st) c) eqn:Hc;
    [|rewrite handleConnect_other_store by (left; exact Hc); split; assumption].
  destruct (truthy_opt (Connection.target c)) eqn:Ht;
    [|rewrite handleConnect_other_store by (right; exact Ht); split; assumption].
  destruct (@handleConnect_accepted_store p c st Hc Ht)
    as (source & target & Es & Et & Hs & Htg & Hneq & Hst).
  rewrite Hst. simpl edges. split.
  - rewrite map_app. apply NoDup_snoc; [exact Hnd|].
    intros Hin. apply in_map_iff in Hin. destruct Hin as (e & Hk & He).
    unfold branchKey in Hk. simpl in Hk. inversion Hk as [[Hsrc Hh]].
    destruct (canConnect_true _ _ Hc) as (_ & Hex & _).
    destruct (proj1 (hasExistingEdge_false _ _) Hex e He) as [_ Hd]; congruence.
  - apply Forall_app. split; [exact Hall|].
    constructor; [simpl; auto | constructor].
Qed.

(** A connection that names no source handle never gives a node a second
    outgoing edge. *)
Lemma handleConnect_keeps_one_outgoing (p : Platform) (c : Connection.t) (st : FlowStore) :
  truthy_opt (Connection.sourceHandle c) = false ->
  NoDup (map Edge.source (edges st)) ->
  NoDup (map Edge.source (edges (fst (run (handleConnect p c) st)))).
Proof.
  intros Hh Hnd.
  destruct (canConnect (edges st) c) eqn:Hc;
    [|rewrite handleConnect_other_store by (left; exact Hc); assumption].
  destruct (truthy_opt (Connection.target c)) eqn:Ht;
    [|rewrite handleConnect_other_store by (right; exact Ht); assumption].
  destruct (@handleConnect_accepted_store p c st Hc Ht)
    as (source & target & Es & Et & _ & _ & _ & Hst).
  rewrite Hst. simpl edges. rewrite map_app. apply NoDup_snoc; [exact Hnd|].
  intros Hin. apply in_map_iff in Hin. destruct Hin as (e & Hk & He).
  simpl in Hk.
  destruct (canConnect_true _ _ Hc) as (_ & Hex & _).
  destruct (proj1 (hasExistingEdge_false _ _) Hex e He) as [Htr _]; congruence.
Qed.

(** ** Start nodes and contents *)

Lemma nodesWithoutIncomingEdge_snoc (ns : list Node.t) (es : list Edge.t) (e : Edge.t) :
  nodesWithoutIncomingEdge ns (es ++ [e]) =
  filter (fun node => negb (eqb (Edge.target e) (Node.id node)))
    (nodesWithoutIncomingEdge ns es).
Proof.
  unfold nodesWithoutIncomingEdge.
  induction ns as [|n ns IH]; simpl; [reflexivity|].
  rewrite existsb_app, IH. simpl. rewrite orb_false_r.
  destruct (existsb _ es); simpl; [reflexivity|].
  destruct (eqb (Edge.target e) (Node.id n)); reflexivity.
Qed.

(** X3: an accepted connection to [target] removes from the start nodes
    exactly the nodes whose id is [target] and keeps the others, in order;
    so the number of start nodes never grows by connecting. *)
Theorem handleConnect_start_nodes (p : Platform) (c : Connection.t) (st : FlowStore)
    (target : jsstring) :
  canConnect (edges st) c = true ->
  Connection.target c = Some target ->
  target <> [] ->
  nodesWithoutIncomingEdge (nodes (fst (run (handleConnect p c) st)))
                           (edges (fst (run (handleConnect p c) st))) =
    filter (fun node => negb (eqb target (Node.id node)))
      (nodesWithoutIncomingEdge (nodes st) (edges st))
  /\ List.length (nodesWithoutIncomingEdge (nodes (fst (run (handleConnect p c) st)))
                                           (edges (fst (run (handleConnect p c) st))))
     <= List.length (nodesWithoutIncomingEdge (nodes st) (edges st)).
Proof.
  intros Hc Et Hne.
  assert (Ht : truthy_opt (Connection.target c) = true)
    by (rewrite Et; destruct target; [contradiction | reflexivity]).
  destruct (@handleConnect_accepted_store p c st Hc Ht)
    as (source & target' & Es & Et' & _ & _ & _ & Hst).
  assert (target' = target) by congruence. subst target'.
  rewrite Hst. simpl nodes. simpl edges.
  rewrite nodesWithoutIncomingEdge_snoc. simpl Edge.target.
  split; [reflexivity | apply filter_length_le].
Qed.

(** Connecting [A] to [B] in the two disconnected nodes leaves [A] as the
    only start node. *)
Lemma handleConnect_start_nodes_two :
  canConnect (edges twoDisconnected) (connectionBetween "A" "B") = true
  /\ Connection.target (connectionBetween "A" "B") = Some (lit "B")
  /\ lit "B" <> []
  /\ nodesWithoutIncomingEdge
       (nodes (fst (run (handleConnect (uuidPlatform "u-1") (connectionBetween "A" "B"))
                      twoDisconnected)))
       (edges (fst (run (handleConnect (uuidPlatform "u-1") (connectionBetween "A" "B"))
                      twoDisconnected))) =
     filter (fun node => negb (eqb (lit "B") (Node.id node)))
       (nodesWithoutIncomingEdge (nodes twoDisconnected) (edges twoDisconnected)).
Proof.
  assert (Hne : lit "B" <> []) by (vm_compute; discriminate).
  split; [reflexivity|]. split; [reflexivity|]. split; [exact Hne|].
  exact (proj1 (@handleConnect_start_nodes (uuidPlatform "u-1")
                  (connectionBetween "A" "B") twoDisconnected (lit "B")
                  eq_refl eq_refl Hne)).
Defined.

(** X4: the nodes the content check of [handleSave] holds against the flow
    are exactly those whose content is empty or made of white space only. *)
Theorem nodesWithoutMessage_In (ns : list Node.t) (node : Node.t) :
  In node (nodesWithoutMessage ns) <->
  In node ns
  /\ forallb isWhiteSpace (TextMessageNodeData.content (Node.data node)) = true.
Proof.
  unfold nodesWithoutMessage. rewrite filter_In, blank_iff, trim_nil. tauto.
Qed.

Lemma nodesWithoutIncomingEdge_no_edges (ns : list Node.t) :
  nodesWithoutIncomingEdge ns [] = ns.
Proof.
  unfold nodesWithoutIncomingEdge. simpl.
  induction ns as [|n ns IH]; simpl; [reflexivity | rewrite IH; reflexivity].
Qed.

(** X5: a flow without edges saves exactly when it is a single node whose
    content is not blank: every node is then a start node. *)
Theorem handleSave_no_edges (ns : list Node.t) (sel : option jsstring) :
  run handleSave (mkStore ns [] sel) =
    (mkStore ns [] sel,
     [ ToastSuccess (lit "Flow saved successfully!");
       ConsoleLog (lit "Saved flow:") ns [] ])
  <->
  exists node, ns = [node]
               /\ trim (TextMessageNodeData.content (Node.data node)) <> [].
Proof.
  rewrite run_handleSave. simpl nodes. simpl edges.
  rewrite nodesWithoutIncomingEdge_no_edges.
  split.
  - destruct ns as [|n [|m ns]]; cbn [List.length Nat.eqb Nat.ltb Nat.leb];
      try discriminate.
    destruct (nodesWithoutMessage [n]) eqn:E; cbn [List.length Nat.ltb Nat.leb];
      [|discriminate].
    intros _. exists n. split; [reflexivity|].
    apply (proj1 (nodesWithoutMessage_nil [n]) E). left. reflexivity.
  - intros (node & -> & Hc). cbn [List.length Nat.eqb Nat.ltb Nat.leb].
    assert (E : nodesWithoutMessage [node] = []).
    { apply nodesWithoutMessage_nil. intros n [<- | []]. exact Hc. }
    rewrite E. reflexivity.
Qed.

(** ** Editing a node's content *)

Section MapsThatKeepIds.

Variable f : Node.t -> Node.t.
Hypothesis f_id : forall node, Node.id (f node) = Node.id node.

Lemma map_keeps_ids (ns : list Node.t) : map Node.id (map f ns) = map Node.id ns.
Proof.
  rewrite map_map. apply map_ext. exact f_id.
Qed.

Lemma filter_by_id_map (test : jsstring -> bool) (ns : list Node.t) :
  filter (fun node => test (Node.id node)) (map f ns) =
  map f (filter (fun node => test (Node.id node)) ns).
Proof.
  induction ns as [|n ns IH]; simpl; [reflexivity|].
  rewrite f_id, IH. destruct (test (Node.id n)); reflexivity.
Qed.

Lemma find_by_id_map (test : jsstring -> bool) (ns : list Node.t) :
  find (fun node => test (Node.id node)) (map f ns) =
  option_map f (find (fun node => test (Node.id node)) ns).
Proof.
  induction ns as [|n ns IH]; simpl; [reflexivity|].
  rewrite f_id, IH. destruct (test (Node.id n)); reflexivity.
Qed.

End MapsThatKeepIds.

(** The node-by-node rewriting [updateNodeData] applies keeps ids. *)
Lemma updateNodeData_nodes (nodeId : jsstring) (data : PartialData.t) (st : FlowStore) :
  exists f : Node.t -> Node.t,
    (forall node, Node.id (f node) = Node.id node)
    /\ (forall node, eqb (Node.id node) nodeId = true ->
          f node = Node.mk (Node.id node) (Node.type node) (Node.position node)
                     (mergeData (Node.data node) data))
    /\ (forall node, eqb (Node.id node) nodeId = false -> f node = node)
    /\ nodes (updateNodeData nodeId data st) = map f (nodes st).
Proof.
  exists (fun node =>
            if eqb (Node.id node) nodeId
            then Node.mk (Node.id node) (Node.type node) (Node.position node)
                   (mergeData (Node.data node) data)
            else node).
  repeat split.
  - intros node. destruct (eqb (Node.id node) nodeId); reflexivity.
  - intros node H. rewrite H. reflexivity.
  - intros node H. rewrite H. reflexivity.
Qed.

(** X6: editing contents never moves a flow in or out of the first two
    checks of the save: [updateNodeData] keeps the ids of the nodes and of
    the start nodes, in order, so a save refused for an empty flow or for
    its start nodes is refused the same way after any edit. *)
Theorem updateNodeData_keeps_start_nodes (nodeId : jsstring) (data : PartialData.t)
    (st : FlowStore) :
  map Node.id (nodes (updateNodeData nodeId data st)) = map Node.id (nodes st)
  /\ map Node.id (nodesWithoutIncomingEdge (nodes (updateNodeData nodeId data st))
                                           (edges (updateNodeData nodeId data st))) =
     map Node.id (nodesWithoutIncomingEdge (nodes st) (edges st))
  /\ (forall message,
        message = emptyFlowError \/ message = startNodeError ->
        snd (run handleSave st) = [ToastError message] ->
        snd (run handleSave (updateNodeData nodeId data st)) = [ToastError message]).
Proof.
  destruct (updateNodeData_nodes nodeId data st) as (f & Hid & _ & _ & Hn).
  assert (Hids : map Node.id (nodes (updateNodeData nodeId data st)) =
                 map Node.id (nodes st))
    by (rewrite Hn; apply map_keeps_ids; exact Hid).
  assert (Hstart :
    map Node.id (nodesWithoutIncomingEdge (nodes (updateNodeData nodeId data st))
                                          (edges (updateNodeData nodeId data st))) =
    map Node.id (nodesWithoutIncomingEdge (nodes st) (edges st))).
  { rewrite Hn. change (edges (updateNodeData nodeId data st)) with (edges st).
    unfold nodesWithoutIncomingEdge.
    rewrite (filter_by_id_map f Hid
               (fun id => negb (existsb (fun edge => eqb (Edge.target edge) id) (edges st)))).
    apply map_keeps_ids. exact Hid. }
  split; [exact Hids|]. split; [exact Hstart|].
  intros message Hm. rewrite !run_handleSave.
  apply (f_equal (@List.length _)) in Hids, Hstart. rewrite !length_map in Hids, Hstart.
  rewrite Hids, Hstart.
  destruct (Nat.eqb (List.length (nodes st)) 0); [trivial|].
  destruct (Nat.ltb 1 _); [trivial|].
  destruct (Nat.ltb 0 (List.length (nodesWithoutMessage (nodes st)))); simpl;
    intros H; exfalso; destruct Hm as [-> | ->]; vm_compute in H; discriminate.
Qed.

(** X7: edits of one node compose as expected: a content written after any
    edit of the same id replaces it (the last write wins), the same edit
    twice is the edit once, and an edit with no field changes nothing. *)
Theorem updateNodeData_last_write (nodeId : jsstring) (data : PartialData.t)
    (value : jsstring) (st : FlowStore) :
  updateNodeData nodeId (PartialData.mk (Some value)) (updateNodeData nodeId data st) =
    updateNodeData nodeId (PartialData.mk (Some value)) st
  /\ updateNodeData nodeId data (updateNodeData nodeId data st) =
       updateNodeData nodeId data st
  /\ updateNodeData nodeId (PartialData.mk None) st = st.
Proof.
  unfold updateNodeData; simpl. repeat split.
  - f_equal. rewrite map_map. apply map_ext. intros node.
    destruct (eqb (Node.id node) nodeId) eqn:E; simpl; rewrite E; reflexivity.
  - f_equal. rewrite map_map. apply map_ext. intros node.
    destruct (eqb (Node.id node) nodeId) eqn:E; simpl; rewrite E; [|reflexivity].
    f_equal. unfold mergeData. destruct (PartialData.content data); reflexivity.
  - destruct st as [ns es sel]; simpl. f_equal.
    apply map_unchanged. intros node _.
    destruct (eqb (Node.id node) nodeId); [|reflexivity].
    destruct node as [i t pos d]; reflexivity.
Qed.

(** ** The sidebar *)

(** X8: what is typed in the properties panel is what the panel shows
    next: with a node selected, [onChange value] leaves that node selected
    with [value] as its content, its id, type and position kept, and
    notifies nothing. *)
Theorem onChange_round_trip (value : jsstring) (st : FlowStore) (node : Node.t) :
  selectedNode st = Some node ->
  selectedNode (fst (run (onChange value) st)) =
    Some (Node.mk (Node.id node) (Node.type node) (Node.position node)
            (TextMessageNodeData.mk value))
  /\ sidebar (fst (run (onChange value) st)) = NodePropertiesPanel value
  /\ selectedNodeId (fst (run (onChange value) st)) = selectedNodeId st
  /\ edges (fst (run (onChange value) st)) = edges st
  /\ snd (run (onChange value) st) = [].
Proof.
  intros Hsel. rewrite run_onChange, Hsel. simpl fst. simpl snd.
  assert (Hfind : selectedNode (updateNodeData (Node.id node) (PartialData.mk (Some value)) st)
                  = Some (Node.mk (Node.id node) (Node.type node) (Node.position node)
                            (TextMessageNodeData.mk value))).
  { destruct (updateNodeData_nodes (Node.id node) (PartialData.mk (Some value)) st)
      as (f & Hid & Hhit & _ & Hn).
    unfold selectedNode in *. rewrite Hn.
    change (selectedNodeId (updateNodeData (Node.id node) (PartialData.mk (Some value)) st))
      with (selectedNodeId st).
    rewrite (find_by_id_map f Hid (fun id => eqb_opt (Some id) (selectedNodeId st))).
    rewrite Hsel. simpl. rewrite Hhit by apply eqb_refl. reflexivity. }
  split; [exact Hfind|]. unfold sidebar. rewrite Hfind. repeat split.
Qed.

(** Selecting the initial node and typing "Hi" shows "Hi". *)
Lemma onChange_round_trip_initial :
  selectedNode (setSelectedNodeId (Some (lit "node-1")) useFlowStore) =
    Some (Node.mk (lit "node-1") (lit "textMessage") (XYPosition.mk 250%float 80%float)
            (TextMessageNodeData.mk (lit "Hello! How can I help you today?")))
  /\ sidebar (fst (run (onChange (lit "Hi"))
                     (setSelectedNodeId (Some (lit "node-1")) useFlowStore))) =
     NodePropertiesPanel (lit "Hi").
Proof.
  split; [reflexivity|].
  exact (proj1 (proj2 (@onChange_round_trip (lit "Hi")
                         (setSelectedNodeId (Some (lit "node-1")) useFlowStore) _ eq_refl))).
Defined.

(** X9: the sidebar shows the nodes library exactly when no node of the
    store carries the selected id: with a [null] selection, and also when
    the selection names a node that is not (or no longer) in the store.
    Clicking the pane, closing the panel and an empty selection report all
    lead there. *)
Theorem sidebar_NodesPanel (st : FlowStore) :
  (sidebar st = NodesPanel <->
     forall node, In node (nodes st) -> Some (Node.id node) <> selectedNodeId st)
  /\ sidebar (fst (run handlePaneClick st)) = NodesPanel
  /\ sidebar (fst (run onClose st)) = NodesPanel
  /\ sidebar (fst (run (handleSelectionChange []) st)) = NodesPanel.
Proof.
  assert (Hnone : forall s, selectedNodeId s = None -> sidebar s = NodesPanel).
  { intros s Hs. unfold sidebar, selectedNode. rewrite Hs.
    induction (nodes s) as [|n ns IH]; simpl; [reflexivity | exact IH]. }
  split; [|repeat split; apply Hnone; reflexivity].
  unfold sidebar, selectedNode.
  destruct (find _ (nodes st)) as [node|] eqn:E.
  - split; [discriminate|]. intros H. exfalso.
    apply find_some in E. destruct E as [Hin Heq].
    apply eqb_opt_eq in Heq. exact (H node Hin Heq).
  - split; [|reflexivity]. intros _ node Hin.
    apply eqb_opt_neq. exact (find_none _ _ E node Hin).
Qed.

(** ** Dropping a node *)

(** X10: a drop that carries no node type, or that arrives before the
    wrapper or the reactflow instance is mounted, is ignored: the store is
    unchanged and nothing is shown. *)
Theorem handleDrop_ignored (p : Platform) (canvas : Canvas) (event : DropEvent)
    (st : FlowStore) :
  dataTransferType event = []
  \/ reactFlowWrapper canvas = None
  \/ reactFlowInstance canvas = None ->
  run (handleDrop p canvas event) st = (st, []).
Proof.
  intros H. rewrite run_handleDrop.
  destruct (dataTransferType event) as [|ch rest]; [reflexivity|]. simpl.
  destruct (reactFlowWrapper canvas); [|reflexivity].
  destruct (reactFlowInstance canvas); [|reflexivity].
  destruct H as [H | [H | H]]; discriminate.
Qed.

Lemma handleDrop_ignored_unmounted :
  (dataTransferType (dropOf "textMessage") = []
   \/ reactFlowWrapper unmountedCanvas = None
   \/ reactFlowInstance unmountedCanvas = None)
  /\ run (handleDrop (uuidPlatform "u-1") unmountedCanvas (dropOf "textMessage"))
       useFlowStore = (useFlowStore, []).
Proof.
  assert (H : dataTransferType (dropOf "textMessage") = []
              \/ reactFlowWrapper unmountedCanvas = None
              \/ reactFlowInstance unmountedCanvas = None)
    by (right; right; reflexivity).
  split; [exact H|].
  exact (@handleDrop_ignored (uuidPlatform "u-1") unmountedCanvas
           (dropOf "textMessage") useFlowStore H).
Defined.

(** What a drop on a mounted canvas leaves in the store. *)
Lemma handleDrop_store (p : Platform) (canvas : Canvas) (event : DropEvent)
    (st : FlowStore) (bounds : DOMRect) (project : XYPosition.t -> XYPosition.t) :
  dataTransferType event <> [] ->
  reactFlowWrapper canvas = Some bounds ->
  reactFlowInstance canvas = Some project ->
  run (handleDrop p canvas event) st =
    (mkStore
       (nodes st ++
        [Node.mk (generateId (lit "node-") p) (dataTransferType event)
           (project (XYPosition.mk (clientX event - left bounds)%float
                                   (clientY event - top bounds)%float))
           (TextMessageNodeData.mk (lit "New chatbot message"))])
       (edges st) (Some (generateId (lit "node-") p)), []).
Proof.
  intros Ht Hw Hi. rewrite run_handleDrop, Hw, Hi.
  destruct (dataTransferType event); [contradiction | reflexivity].
Qed.

Lemma find_app_first (A : Type) (test : A -> bool) (l l' : list A) :
  find test (l ++ l') =
  match find test l with
  | Some a => Some a
  | None => find test l'
  end.
Proof.
  induction l as [|a l IH]; simpl; [reflexivity|].
  destruct (test a); [reflexivity | exact IH].
Qed.

(** X11: a drop on a mounted canvas selects the generated id, and the
    sidebar then shows the first node with that id: the new node, with the
    default text, when the id is new in the store; the older node with that
    id when the store already had one (ids are not checked on insertion). *)
Theorem handleDrop_sidebar (p : Platform) (canvas : Canvas) (event : DropEvent)
    (st : FlowStore) (bounds : DOMRect) (project : XYPosition.t -> XYPosition.t) :
  dataTransferType event <> [] ->
  reactFlowWrapper canvas = Some bounds ->
  reactFlowInstance canvas = Some project ->
  selectedNodeId (fst (run (handleDrop p canvas event) st)) =
    Some (generateId (lit "node-") p)
  /\ ((forall node, In node (nodes st) -> Node.id node <> generateId (lit "node-") p) ->
      sidebar (fst (run (handleDrop p canvas event) st)) =
        NodePropertiesPanel (lit "New chatbot message"))
  /\ (forall older,
        find (fun node => eqb (Node.id node) (generateId (lit "node-") p)) (nodes st) =
          Some older ->
        sidebar (fst (run (handleDrop p canvas event) st)) =
          NodePropertiesPanel (TextMessageNodeData.content (Node.data older))).
Proof.
  intros Ht Hw Hi. rewrite (@handleDrop_store p canvas event st bounds project Ht Hw Hi). simpl fst.
  split; [reflexivity|].
  unfold sidebar, selectedNode. simpl nodes. simpl selectedNodeId.
  rewrite find_app_first. simpl eqb_opt. split.
  - intros Hnew.
    destruct (find _ (nodes st)) as [node|] eqn:E.
    + apply find_some in E. destruct E as [Hin Heq].
      apply eqb_eq in Heq. exfalso. exact (Hnew node Hin Heq).
    + simpl. rewrite eqb_refl. reflexivity.
  - intros older Hold. rewrite Hold. reflexivity.
Qed.

(** A first drop on the initial store shows the new node's default text. *)
Lemma handleDrop_sidebar_initial :
  dataTransferType (dropOf "textMessage") <> []
  /\ sidebar (fst (run (handleDrop (uuidPlatform "u-1") mountedCanvas (dropOf "textMessage"))
                     useFlowStore)) =
     NodePropertiesPanel (lit "New chatbot message").
Proof.
  assert (Ht : dataTransferType (dropOf "textMessage") <> [])
    by (vm_compute; discriminate).
  split; [exact Ht|].
  refine (proj1 (proj2 (@handleDrop_sidebar (uuidPlatform "u-1") mountedCanvas
                          (dropOf "textMessage") useFlowStore _ _ Ht eq_refl eq_refl)) _).
  intros node [<- | []]. vm_compute. discriminate.
Defined.

Lemma nodesWithoutIncomingEdge_app (ns ns' : list Node.t) (es : list Edge.t) :
  nodesWithoutIncomingEdge (ns ++ ns') es =
  nodesWithoutIncomingEdge ns es ++ nodesWithoutIncomingEdge ns' es.
Proof. unfold nodesWithoutIncomingEdge. apply filter_app. Qed.

(** X12: a node dropped beside a flow that already has a start node must
    be connected before the flow can be saved: unless some edge already
    targets the generated id, the save right after the drop is refused with
    the start-node error. *)
Theorem handleDrop_then_save (p : Platform) (canvas : Canvas) (event : DropEvent)
    (st : FlowStore) (bounds : DOMRect) (project : XYPosition.t -> XYPosition.t) :
  dataTransferType event <> [] ->
  reactFlowWrapper canvas = Some bounds ->
  reactFlowInstance canvas = Some project ->
  nodesWithoutIncomingEdge (nodes st) (edges st) <> [] ->
  (forall edge, In edge (edges st) -> Edge.target edge <> generateId (lit "node-") p) ->
  run (handleDrop p canvas event ;; handleSave) st =
    (fst (run (handleDrop p canvas event) st),
     [ToastError (lit "Only one starting node is allowed. Connect your flow before saving.")]).
Proof.
  intros Ht Hw Hi Hstart Hfresh.
  rewrite run_seq, (@handleDrop_store p canvas event st bounds project Ht Hw Hi).
  simpl fst. simpl snd.
  set (node := Node.mk (generateId (lit "node-") p) (dataTransferType event)
                 (project (XYPosition.mk (clientX event - left bounds)%float
                                         (clientY event - top bounds)%float))
                 (TextMessageNodeData.mk (lit "New chatbot message"))).
  assert (Hnew : nodesWithoutIncomingEdge [node] (edges st) = [node]).
  { unfold nodesWithoutIncomingEdge. simpl.
    replace (existsb (fun edge => eqb (Edge.target edge) (generateId (lit "node-") p))
               (edges st))
      with false; [reflexivity|].
    symmetry. apply existsb_false_iff. intros edge He.
    apply eqb_neq. exact (Hfresh edge He). }
  rewrite run_handleSave. simpl nodes. simpl edges.
  destruct (Nat.eqb_spec (List.length (nodes st ++ [node])) 0) as [E|_];
    [rewrite length_app in E; simpl in E; lia|].
  destruct (Nat.ltb_spec 1 (List.length
                              (nodesWithoutIncomingEdge (nodes st ++ [node]) (edges st))))
    as [_|H]; [reflexivity|].
  exfalso. rewrite nodesWithoutIncomingEdge_app, length_app, Hnew in H.
  destruct (nodesWithoutIncomingEdge (nodes st) (edges st)); [contradiction|].
  simpl in H. lia.
Qed.

(** Dropping a node on the initial store and saving at once is refused. *)
Lemma handleDrop_then_save_initial :
  dataTransferType (dropOf "textMessage") <> []
  /\ nodesWithoutIncomingEdge (nodes useFlowStore) (edges useFlowStore) <> []
  /\ run (handleDrop (uuidPlatform "u-1") mountedCanvas (dropOf "textMessage") ;; handleSave)
       useFlowStore =
     (fst (run (handleDrop (uuidPlatform "u-1") mountedCanvas (dropOf "textMessage"))
             useFlowStore),
      [ToastError (lit "Only one starting node is allowed. Connect your flow before saving.")]).
Proof.
  assert (Ht : dataTransferType (dropOf "textMessage") <> [])
    by (vm_compute; discriminate).
  assert (Hs : nodesWithoutIncomingEdge (nodes useFlowStore) (edges useFlowStore) <> [])
    by (vm_compute; discriminate).
  split; [exact Ht|]. split; [exact Hs|].
  refine (@handleDrop_then_save (uuidPlatform "u-1") mountedCanvas (dropOf "textMessage")
            useFlowStore _ _ Ht eq_refl eq_refl Hs _).
  intros edge [].
Defined.

(** X13: identifiers are not checked against the store.  On a platform
    without [crypto.randomUUID], two drops within one reading of
    [Date.now()] give two nodes the same id; the sidebar then shows the
    first of the two, and an edit made there rewrites the content of both. *)
Theorem handleDrop_same_timestamp (p : Platform) (canvas : Canvas)
    (event event' : DropEvent) (st : FlowStore)
    (bounds : DOMRect) (project : XYPosition.t -> XYPosition.t) (value : jsstring) :
  randomUUID p = None ->
  dataTransferType event <> [] ->
  dataTransferType event' <> [] ->
  reactFlowWrapper canvas = Some bounds ->
  reactFlowInstance canvas = Some project ->
  (forall node, In node (nodes st) -> Node.id node <> lit "node-" ++ dateNow p) ->
  exists first second,
    nodes (fst (run (handleDrop p canvas event ;; handleDrop p canvas event') st)) =
      nodes st ++ [first; second]
    /\ Node.id first = lit "node-" ++ dateNow p
    /\ Node.id second = lit "node-" ++ dateNow p
    /\ selectedNode (fst (run (handleDrop p canvas event ;; handleDrop p canvas event') st)) =
         Some first
    /\ nodes (fst (run ((handleDrop p canvas event ;; handleDrop p canvas event') ;;
                        onChange value) st)) =
         nodes st ++
         [ Node.mk (Node.id first) (Node.type first) (Node.position first)
             (TextMessageNodeData.mk value);
           Node.mk (Node.id second) (Node.type second) (Node.position second)
             (TextMessageNodeData.mk value) ].
Proof.
  intros Hp Ht Ht' Hw Hi Hfresh.
  assert (Hg : generateId (lit "node-") p = lit "node-" ++ dateNow p)
    by (unfold generateId; rewrite Hp; reflexivity).
  set (g := lit "node-" ++ dateNow p) in *.
  set (position e := project (XYPosition.mk (clientX e - left bounds)%float
                                            (clientY e - top bounds)%float)).
  set (dropped e := Node.mk g (dataTransferType e) (position e)
                      (TextMessageNodeData.mk (lit "New chatbot message"))).
  assert (Htwo : fst (run (handleDrop p canvas event ;; handleDrop p canvas event') st) =
                 mkStore (nodes st ++ [dropped event; dropped event']) (edges st) (Some g)).
  { rewrite run_seq.
    rewrite (@handleDrop_store p canvas event st bounds project Ht Hw Hi). simpl fst.
    rewrite (@handleDrop_store p canvas event' _ bounds project Ht' Hw Hi). simpl.
    rewrite Hg, <- app_assoc. reflexivity. }
  assert (Hold : find (fun node => eqb_opt (Some (Node.id node)) (Some g)) (nodes st) = None).
  { destruct (find _ (nodes st)) as [node|] eqn:E; [|reflexivity].
    apply find_some in E. destruct E as [Hin Heq]. simpl in Heq.
    apply eqb_eq in Heq. exfalso. exact (Hfresh node Hin Heq). }
  assert (Hsel : selectedNode (mkStore (nodes st ++ [dropped event; dropped event'])
                                 (edges st) (Some g)) = Some (dropped event)).
  { unfold selectedNode. simpl nodes. simpl selectedNodeId.
    rewrite find_app_first, Hold. simpl. rewrite eqb_refl. reflexivity. }
  exists (dropped event), (dropped event').
  split; [rewrite Htwo; reflexivity|].
  split; [reflexivity|]. split; [reflexivity|].
  split; [rewrite Htwo; exact Hsel|].
  rewrite run_seq, Htwo, run_onChange, Hsel. simpl fst.
  unfold updateNodeData. simpl nodes. rewrite map_app. f_equal.
  - apply map_unchanged. intros node Hin.
    rewrite (proj2 (eqb_neq _ _) (Hfresh node Hin)). reflexivity.
  - simpl. rewrite eqb_refl. reflexivity.
Qed.

(** Two drops at the same millisecond on the initial store, then an edit. *)
Lemma handleDrop_same_timestamp_initial :
  randomUUID (legacyPlatform "1700000000000") = None
  /\ exists first second,
       nodes (fst (run (handleDrop (legacyPlatform "1700000000000") mountedCanvas
                          (dropOf "textMessage") ;;
                        handleDrop (legacyPlatform "1700000000000") mountedCanvas
                          (dropOf "textMessage")) useFlowStore)) =
         nodes useFlowStore ++ [first; second]
       /\ Node.id first = lit "node-" ++ dateNow (legacyPlatform "1700000000000")
       /\ Node.id second = lit "node-" ++ dateNow (legacyPlatform "1700000000000")
       /\ selectedNode
            (fst (run (handleDrop (legacyPlatform "1700000000000") mountedCanvas
                         (dropOf "textMessage") ;;
                       handleDrop (legacyPlatform "1700000000000") mountedCanvas
                         (dropOf "textMessage")) useFlowStore)) = Some first
       /\ nodes (fst (run ((handleDrop (legacyPlatform "1700000000000") mountedCanvas
                              (dropOf "textMessage") ;;
                            handleDrop (legacyPlatform "1700000000000") mountedCanvas
                              (dropOf "textMessage")) ;;
                           onChange (lit "Bye")) useFlowStore)) =
            nodes useFlowStore ++
            [ Node.mk (Node.id first) (Node.type first) (Node.position first)
                (TextMessageNodeData.mk (lit "Bye"));
              Node.mk (Node.id second) (Node.type second) (Node.position second)
                (TextMessageNodeData.mk (lit "Bye")) ].
Proof.
  split; [reflexivity|].
  assert (Ht : dataTransferType (dropOf "textMessage") <> [])
    by (vm_compute; discriminate).
  refine (@handleDrop_same_timestamp (legacyPlatform "1700000000000") mountedCanvas
            (dropOf "textMessage") (dropOf "textMessage") useFlowStore _ _ (lit "Bye")
            eq_refl Ht Ht eq_refl eq_refl _).
  intros node [<- | []]. vm_compute. discriminate.
Defined.

(** ** Sequences of gestures *)

Lemma handleSave_store (st : FlowStore) : fst (run handleSave st) = st.
Proof.
  rewrite run_handleSave.
  destruct (Nat.eqb _ 0); [reflexivity|].
  destruct (Nat.ltb 1 _); [reflexivity|].
  destruct (Nat.ltb 0 _); reflexivity.
Qed.

(** Every gesture but an accepted connection leaves the edges alone. *)
Lemma perform_edges (g : Gesture) (st : FlowStore) :
  (forall p c, g = Connect p c ->
               canConnect (edges st) c = false
               \/ truthy_opt (Connection.target c) = false) ->
  edges (fst (run (perform g) st)) = edges st.
Proof.
  intros Hg. destruct g as [p c|p canvas event|selected| | |value|]; simpl perform.
  - rewrite handleConnect_other_store; [reflexivity | exact (Hg p c eq_refl)].
  - rewrite run_handleDrop.
    destruct (negb _); [reflexivity|].
    destruct (reactFlowWrapper canvas); [|reflexivity].
    destruct (reactFlowInstance canvas); reflexivity.
  - reflexivity.
  - reflexivity.
  - rewrite handleSave_store. reflexivity.
  - rewrite run_onChange. destruct (selectedNode st); reflexivity.
  - reflexivity.
Qed.

Lemma perform_wellBranched (g : Gesture) (st : FlowStore) :
  wellBranched (edges st) -> wellBranched (edges (fst (run (perform g) st))).
Proof.
  intros H.
  destruct g as [p c|p canvas event|selected| | |value|];
    try (rewrite perform_edges; [exact H | intros ? ? ?; discriminate]).
  apply handleConnect_keeps_wellBranched. exact H.
Qed.

(** X14: whatever the user does with the modelled gestures (connect, drop,
    select, click the pane, edit, close the panel, save), in any order, a
    store whose edges are well branched stays so: no node gets two edges
    from the same source handle, no edge joins a node to itself, and no
    edge has an empty endpoint. *)
Theorem performAll_wellBranched (gs : list Gesture) (st : FlowStore) :
  wellBranched (edges st) ->
  wellBranched (edges (fst (run (performAll gs) st))).
Proof.
  revert st. induction gs as [|g gs IH]; intros st H; simpl performAll.
  - exact H.
  - rewrite run_seq. simpl fst. apply IH, perform_wellBranched, H.
Qed.

Lemma performAll_wellBranched_session :
  wellBranched (edges useFlowStore)
  /\ wellBranched (edges (fst (run (performAll session) useFlowStore))).
Proof.
  assert (H : wellBranched (edges useFlowStore)) by (split; simpl; constructor).
  split; [exact H|].
  exact (@performAll_wellBranched session useFlowStore H).
Defined.

(** X15: one outgoing edge per node.  When no connection names a source
    handle, a store in which no two edges leave the same node stays so
    through any sequence of the modelled gestures. *)
Theorem performAll_one_outgoing (gs : list Gesture) (st : FlowStore) :
  Forall namesNoHandle gs ->
  NoDup (map Edge.source (edges st)) ->
  NoDup (map Edge.source (edges (fst (run (performAll gs) st)))).
Proof.
  intros Hgs. revert st.
  induction Hgs as [|g gs Hg _ IH]; intros st H; simpl performAll.
  - exact H.
  - rewrite run_seq. simpl fst. apply IH.
    destruct g as [p c|p canvas event|selected| | |value|];
      try (rewrite perform_edges; [exact H | intros ? ? ?; discriminate]).
    apply handleConnect_keeps_one_outgoing; [exact Hg | exact H].
Qed.

Lemma performAll_one_outgoing_session :
  Forall namesNoHandle session
  /\ NoDup (map Edge.source (edges useFlowStore))
  /\ NoDup (map Edge.source (edges (fst (run (performAll session) useFlowStore)))).
Proof.
  assert (Hs : Forall namesNoHandle session)
    by (repeat constructor).
  assert (H0 : NoDup (map Edge.source (edges useFlowStore))) by constructor.
  split; [exact Hs|]. split; [exact H0|].
  exact (@performAll_one_outgoing session useFlowStore Hs H0).
Defined.

Lemma perform_grows (g : Gesture) (st : FlowStore) :
  exists (es : list Edge.t) (ids : list jsstring),
    edges (fst (run (perform g) st)) = edges st ++ es
    /\ map Node.id (nodes (fst (run (perform g) st))) = map Node.id (nodes st) ++ ids.
Proof.
  assert (Hsame : forall s : FlowStore,
            edges s = edges st -> map Node.id (nodes s) = map Node.id (nodes st) ->
            exists es ids, edges s = edges st ++ es
                           /\ map Node.id (nodes s) = map Node.id (nodes st) ++ ids).
  { intros s He Hn. exists [], []. rewrite !app_nil_r. auto. }
  destruct g as [p c|p canvas event|selected| | |value|]; simpl perform.
  - destruct (canConnect (edges st) c) eqn:Hc;
      [|rewrite handleConnect_other_store by (left; exact Hc); apply Hsame; reflexivity].
    destruct (truthy_opt (Connection.target c)) eqn:Ht;
      [|rewrite handleConnect_other_store by (right; exact Ht); apply Hsame; reflexivity].
    destruct (@handleConnect_accepted_store p c st Hc Ht)
      as (source & target & _ & _ & _ & _ & _ & Hst).
    rewrite Hst. simpl.
    exists [newEdge (generateId (lit "edge-") p) source target c], [].
    rewrite app_nil_r. split; reflexivity.
  - rewrite run_handleDrop.
    destruct (negb _); [apply Hsame; reflexivity|].
    destruct (reactFlowWrapper canvas); [|apply Hsame; reflexivity].
    destruct (reactFlowInstance canvas); [|apply Hsame; reflexivity].
    simpl. exists [], [generateId (lit "node-") p].
    rewrite app_nil_r, map_app. split; reflexivity.
  - apply Hsame; reflexivity.
  - apply Hsame; reflexivity.
  - rewrite handleSave_store. apply Hsame; reflexivity.
  - rewrite run_onChange. destruct (selectedNode st) as [node|];
      [|apply Hsame; reflexivity].
    simpl fst. apply Hsame; [reflexivity|].
    destruct (updateNodeData_nodes (Node.id node) (PartialData.mk (Some value)) st)
      as (f & Hid & _ & _ & Hn).
    rewrite Hn. apply map_keeps_ids. exact Hid.
  - apply Hsame; reflexivity.
Qed.

(** X16: the modelled gestures only ever add: after any sequence of them
    the edges of the store are the old edges followed by new ones, and the
    ids of the nodes are the old ids, in order, followed by new ones.
    Nothing is removed or reordered. *)
Theorem performAll_grows (gs : list Gesture) (st : FlowStore) :
  exists (es : list Edge.t) (ids : list jsstring),
    edges (fst (run (performAll gs) st)) = edges st ++ es
    /\ map Node.id (nodes (fst (run (performAll gs) st))) = map Node.id (nodes st) ++ ids.
Proof.
  revert st. induction gs as [|g gs IH]; intros st; simpl performAll.
  - exists [], []. rewrite !app_nil_r. split; reflexivity.
  - rewrite run_seq. simpl fst.
    destruct (perform_grows g st) as (es1 & ids1 & He1 & Hn1).
    destruct (IH (fst (run (perform g) st))) as (es2 & ids2 & He2 & Hn2).
    exists (es1 ++ es2), (ids1 ++ ids2).
    rewrite He2, Hn2, He1, Hn1, !app_assoc. split; reflexivity.
Qed.

(** ** Selecting a node *)

Lemma find_unique_id (ns : list Node.t) (node : Node.t) :
  NoDup (map Node.id ns) -> In node ns ->
  find (fun n => eqb_opt (Some (Node.id n)) (Some (Node.id node))) ns = Some node.
Proof.
  induction ns as [|n ns IH]; simpl; intros Hnd Hin; [contradiction|].
  inversion Hnd as [|x l Hx Hl]; subst.
  destruct Hin as [-> | Hin].
  - rewrite eqb_refl. reflexivity.
  - destruct (eqb (Node.id n) (Node.id node)) eqn:E; [|apply IH; assumption].
    apply eqb_eq in E. exfalso. apply Hx. rewrite E. apply in_map. exact Hin.
Qed.

(** X17: of the nodes a selection change reports, only the first counts.
    When it is a node of the store the sidebar opens a properties panel
    for its id, and, node ids being distinct, the panel shows that very
    node's content. *)
Theorem handleSelectionChange_sidebar (first : Node.t) (others : list Node.t)
    (st : FlowStore) :
  In first (nodes st) ->
  run (handleSelectionChange (first :: others)) st =
    (setSelectedNodeId (Some (Node.id first)) st, [])
  /\ (exists content,
        sidebar (fst (run (handleSelectionChange (first :: others)) st)) =
          NodePropertiesPanel content)
  /\ (NoDup (map Node.id (nodes st)) ->
      sidebar (fst (run (handleSelectionChange (first :: others)) st)) =
        NodePropertiesPanel (TextMessageNodeData.content (Node.data first))).
Proof.
  intros Hin. split; [reflexivity|].
  change (fst (run (handleSelectionChange (first :: others)) st))
    with (setSelectedNodeId (Some (Node.id first)) st).
  unfold sidebar, selectedNode. simpl nodes. simpl selectedNodeId. split.
  - destruct (find _ (nodes st)) as [node|] eqn:E; [eexists; reflexivity|].
    exfalso. pose proof (find_none _ _ E first Hin) as H.
    simpl in H. rewrite eqb_refl in H. discriminate.
  - intros Hnd. rewrite (find_unique_id _ _ Hnd Hin). reflexivity.
Qed.

(** Clicking the initial node opens its panel. *)
Lemma handleSelectionChange_sidebar_initial :
  In (Node.mk (lit "node-1") (lit "textMessage") (XYPosition.mk 250%float 80%float)
        (TextMessageNodeData.mk (lit "Hello! How can I help you today?")))
     (nodes useFlowStore)
  /\ sidebar (fst (run (handleSelectionChange
                          [Node.mk (lit "node-1") (lit "textMessage")
                             (XYPosition.mk 250%float 80%float)
                             (TextMessageNodeData.mk (lit "Hello! How can I help you today?"))])
                     useFlowStore)) =
     NodePropertiesPanel (lit "Hello! How can I help you today?").
Proof.
  assert (Hin : In (Node.mk (lit "node-1") (lit "textMessage")
                      (XYPosition.mk 250%float 80%float)
                      (TextMessageNodeData.mk (lit "Hello! How can I help you today?")))
                   (nodes useFlowStore))
    by (left; reflexivity).
  split; [exact Hin|].
  refine (proj2 (proj2 (@handleSelectionChange_sidebar _ [] useFlowStore Hin)) _).
  repeat constructor. intros [].
Defined.
